(** * The x/leverage query command line and the lending engine behind it

    Part one ([Module Cli]) is a shallow embedding of
    [x/leverage/client/cli/query.go]: every [GetCmdQuery...] constructor, the
    command tree built by [GetQueryCmd], and the way a cobra command is
    looked up, validated and run.

    Part two ([Module Engine]) is the lending and risk engine that answers
    these queries.  Its sources are not part of the tree at hand; it is
    modelled from the design document, component by component. *)

From Stdlib Require Import ZArith Lia Ascii String List.
From stdpp Require Import gmap strings list fin_maps.

Local Open Scope Z_scope.

(* ===================================================================== *)
(** * Part one: the query commands                                        *)
(* ===================================================================== *)

Module Cli.

Local Open Scope string_scope.

(** ** Request messages of the [types] package

    The message types are declared in [x/leverage/types]; the commands only
    ever fill the fields [Address] and [Denom], so each message is a
    constructor that carries the fields the code assigns. *)
Inductive Request : Type :=
  | QueryRegisteredTokens
  | QueryParamsRequest
  | QueryBorrowedRequest (Address Denom : string)
  | QueryBorrowedValueRequest (Address Denom : string)
  | QuerySuppliedRequest (Address Denom : string)
  | QuerySuppliedValueRequest (Address Denom : string)
  | QueryReserveAmountRequest (Denom : string)
  | QueryCollateralRequest (Address Denom : string)
  | QueryCollateralValueRequest (Address Denom : string)
  | QueryExchangeRateRequest (Denom : string)
  | QueryAvailableBorrowRequest (Denom : string)
  | QuerySupplyAPYRequest (Denom : string)
  | QueryBorrowAPYRequest (Denom : string)
  | QueryMarketSizeRequest (Denom : string)
  | QueryTokenMarketSizeRequest (Denom : string)
  | QueryBorrowLimitRequest (Address : string)
  | QueryLiquidationThresholdRequest (Address : string)
  | QueryMarketSummaryRequest (Denom : string)
  | QueryLiquidationTargetsRequest
  | QueryTotalCollateralRequest (Denom : string)
  | QueryTotalBorrowedRequest (Denom : string).

(** The [Address] field of a message, when the message has one. *)
Definition Address (r : Request) : option string :=
  match r with
  | QueryBorrowedRequest a _ | QueryBorrowedValueRequest a _
  | QuerySuppliedRequest a _ | QuerySuppliedValueRequest a _
  | QueryCollateralRequest a _ | QueryCollateralValueRequest a _
  | QueryBorrowLimitRequest a | QueryLiquidationThresholdRequest a => Some a
  | _ => None
  end.

(** The [Denom] field of a message, when the message has one. *)
Definition Denom (r : Request) : option string :=
  match r with
  | QueryBorrowedRequest _ d | QueryBorrowedValueRequest _ d
  | QuerySuppliedRequest _ d | QuerySuppliedValueRequest _ d
  | QueryCollateralRequest _ d | QueryCollateralValueRequest _ d
  | QueryReserveAmountRequest d | QueryExchangeRateRequest d
  | QueryAvailableBorrowRequest d | QuerySupplyAPYRequest d
  | QueryBorrowAPYRequest d | QueryMarketSizeRequest d
  | QueryTokenMarketSizeRequest d | QueryMarketSummaryRequest d
  | QueryTotalCollateralRequest d | QueryTotalBorrowedRequest d => Some d
  | _ => None
  end.

(** [req.Denom = d]: assignment to the [Denom] field. *)
Definition setDenom (r : Request) (d : string) : Request :=
  match r with
  | QueryBorrowedRequest a _ => QueryBorrowedRequest a d
  | QueryBorrowedValueRequest a _ => QueryBorrowedValueRequest a d
  | QuerySuppliedRequest a _ => QuerySuppliedRequest a d
  | QuerySuppliedValueRequest a _ => QuerySuppliedValueRequest a d
  | QueryCollateralRequest a _ => QueryCollateralRequest a d
  | QueryCollateralValueRequest a _ => QueryCollateralValueRequest a d
  | QueryReserveAmountRequest _ => QueryReserveAmountRequest d
  | QueryExchangeRateRequest _ => QueryExchangeRateRequest d
  | QueryAvailableBorrowRequest _ => QueryAvailableBorrowRequest d
  | QuerySupplyAPYRequest _ => QuerySupplyAPYRequest d
  | QueryBorrowAPYRequest _ => QueryBorrowAPYRequest d
  | QueryMarketSizeRequest _ => QueryMarketSizeRequest d
  | QueryTokenMarketSizeRequest _ => QueryTokenMarketSizeRequest d
  | QueryMarketSummaryRequest _ => QueryMarketSummaryRequest d
  | QueryTotalCollateralRequest _ => QueryTotalCollateralRequest d
  | QueryTotalBorrowedRequest _ => QueryTotalBorrowedRequest d
  | other => other
  end.

Section Commands.

(** What the commands talk to: the error values of Go, the response
    messages of the query service, and the name of the module
    ([types.ModuleName]). *)
Context {Error : Type} {Response : Type}.
Variable ModuleName : string.

(** The collaborators of one invocation.
    - [GetClientQueryContext]: [None] when the client context is built, the
      error otherwise;
    - [GetString]: what [cmd.Flags().GetString(name)] returns, a value and an
      error ([None] for [nil]);
    - [Invoke]: the remote query service, one method per request message;
    - [PrintProto]: the error returned by [clientCtx.PrintProto];
    - [ValidateCmd]: [client.ValidateCmd], the [RunE] of the root. *)
Record Env : Type := {
  GetClientQueryContext : option Error;
  GetString : string -> string * option Error;
  Invoke : Request -> Error + Response;
  PrintProto : Response -> option Error;
  ValidateCmd : list string -> option Error
}.

(** What an invocation does to the outside world, in order. *)
Inductive Event : Type :=
  | Sent (req : Request)
  | Printed (resp : Response).

(** How a Go function ends: a value, a returned [error], or a run-time
    panic (an index out of range). *)
Inductive Outcome (A : Type) : Type :=
  | Ret (a : A)
  | Err (e : Error)
  | Panic.
Arguments Ret {A} a.
Arguments Err {A} e.
Arguments Panic {A}.

(** The monad of command bodies: read the collaborators, log the events,
    stop at the first error. *)
Definition M (A : Type) : Type := Env -> list Event * Outcome A.

Definition ret {A} (a : A) : M A := fun _ => ([], Ret a).

Definition bind {A B} (m : M A) (k : A -> M B) : M B :=
  fun env =>
    match m env with
    | (t, Ret a) => let '(t', o) := k a env in ((t ++ t')%list, o)
    | (t, Err e) => (t, Err e)
    | (t, Panic) => (t, Panic)
    end.

Notation "x <~ m ;; k" := (bind m (fun x => k))
  (at level 100, m at next level, right associativity).
Notation "m ;;; k" := (bind m (fun _ => k))
  (at level 100, right associativity).

(** [if err != nil { return err }] after a call that yields only an error. *)
Definition check (e : option Error) : M unit :=
  fun _ => match e with None => ([], Ret tt) | Some e => ([], Err e) end.

(** [clientCtx, err := client.GetClientQueryContext(cmd)] *)
Definition getClientQueryContext : M unit :=
  fun env => check (GetClientQueryContext env) env.

(** [cmd.Flags().GetString(name)]: both results, no early return. *)
Definition getString (name : string) : M (string * option Error) :=
  fun env => ([], Ret (GetString env name)).

(** A method of [queryClient] (the client that [types.NewQueryClient]
    wraps around the context): the request goes out, the answer or the error
    comes back. *)
Definition call (req : Request) : M Response :=
  fun env =>
    match Invoke env req with
    | inr resp => ([Sent req], Ret resp)
    | inl e => ([Sent req], Err e)
    end.

(** [return clientCtx.PrintProto(resp)] *)
Definition printProto (resp : Response) : M unit :=
  fun env =>
    match PrintProto env resp with
    | None => ([Printed resp], Ret tt)
    | Some e => ([Printed resp], Err e)
    end.

(** [args[i]]: panics out of range. *)
Definition index (args : list string) (i : nat) : M string :=
  fun _ => match nth_error args i with
           | Some a => ([], Ret a)
           | None => ([], Panic)
           end.

(** ** cobra commands *)

(** Positional-argument validators: [cobra.NoArgs], [cobra.ExactArgs(n)],
    and no validator at all. *)
Inductive PositionalArgs : Type :=
  | NoArgs
  | ExactArgs (n : nat)
  | ArbitraryArgs.

#[local] Set Warnings "-register-all".
Inductive Command : Type := mkCommand {
  Use : string;
  Short : string;
  Args : PositionalArgs;
  DisableFlagParsing : bool;
  SuggestionsMinimumDistance : nat;
  RunE : list string -> M unit;
  (** flags declared with [cmd.Flags().String] *)
  Flags : list string;
  (** children added with [cmd.AddCommand] *)
  Commands : list Command
}.

(** [err == nil] *)
Definition isNil (err : option Error) : bool :=
  match err with None => true | Some _ => false end.

(** Flag constants *)
Definition FlagDenom : string := "denom".

(** The flags that [flags.AddQueryFlagsToCmd] of the SDK declares on every
    query command; none of the bodies below reads them. *)
Variable queryFlags : list string.

(** The body of the [if d, err := cmd.Flags().GetString(FlagDenom);
    len(d) > 0 && err == nil { req.Denom = d }] statement. *)
Definition withDenomFlag (req : Request) : M Request :=
  r <~ getString FlagDenom ;;
  let '(d, err) := r in
  if (0 <? String.length d)%nat && isNil err
  then ret (setDenom req d)
  else ret req.

(** [GetCmdQueryAllRegisteredTokens] *)
Definition GetCmdQueryAllRegisteredTokens : Command :=
  {| Use := "registered-tokens";
     Args := NoArgs;
     Short := "Query for all the current registered tokens";
     DisableFlagParsing := false; SuggestionsMinimumDistance := 0;
     RunE := fun args =>
       getClientQueryContext ;;;
       resp <~ call QueryRegisteredTokens ;;
       printProto resp;
     Flags := queryFlags; Commands := [] |}.

(** [GetCmdQueryParams] *)
Definition GetCmdQueryParams : Command :=
  {| Use := "params";
     Args := NoArgs;
     Short := "Query the x/leverage module parameters";
     DisableFlagParsing := false; SuggestionsMinimumDistance := 0;
     RunE := fun args =>
       getClientQueryContext ;;;
       resp <~ call QueryParamsRequest ;;
       printProto resp;
     Flags := queryFlags; Commands := [] |}.

(** [GetCmdQueryBorrowed] *)
Definition GetCmdQueryBorrowed : Command :=
  {| Use := "borrowed [addr]";
     Args := ExactArgs 1;
     Short := "Query for the total amount of borrowed tokens for an address";
     DisableFlagParsing := false; SuggestionsMinimumDistance := 0;
     RunE := fun args =>
       getClientQueryContext ;;;
       a <~ index args 0 ;;
       req <~ withDenomFlag (QueryBorrowedRequest a "") ;;
       resp <~ call req ;;
       printProto resp;
     Flags := FlagDenom :: queryFlags; Commands := [] |}.

(** [GetCmdQueryBorrowedValue] *)
Definition GetCmdQueryBorrowedValue : Command :=
  {| Use := "borrowed-value [addr]";
     Args := ExactArgs 1;
     Short := "Query for the total USD value of borrowed tokens for an address";
     DisableFlagParsing := false; SuggestionsMinimumDistance := 0;
     RunE := fun args =>
       getClientQueryContext ;;;
       a <~ index args 0 ;;
       req <~ withDenomFlag (QueryBorrowedValueRequest a "") ;;
       resp <~ call req ;;
       printProto resp;
     Flags := FlagDenom :: queryFlags; Commands := [] |}.

(** [GetCmdQuerySupplied] *)
Definition GetCmdQuerySupplied : Command :=
  {| Use := "supplied [addr]";
     Args := ExactArgs 1;
     Short := "Query for the total amount of tokens supplied by an address";
     DisableFlagParsing := false; SuggestionsMinimumDistance := 0;
     RunE := fun args =>
       getClientQueryContext ;;;
       a <~ index args 0 ;;
       req <~ withDenomFlag (QuerySuppliedRequest a "") ;;
       resp <~ call req ;;
       printProto resp;
     Flags := FlagDenom :: queryFlags; Commands := [] |}.

(** [GetCmdQuerySuppliedValue] *)
Definition GetCmdQuerySuppliedValue : Command :=
  {| Use := "supplied-value [addr]";
     Args := ExactArgs 1;
     Short := "Query for the USD value of tokens supplied by an address";
     DisableFlagParsing := false; SuggestionsMinimumDistance := 0;
     RunE := fun args =>
       getClientQueryContext ;;;
       a <~ index args 0 ;;
       req <~ withDenomFlag (QuerySuppliedValueRequest a "") ;;
       resp <~ call req ;;
       printProto resp;
     Flags := FlagDenom :: queryFlags; Commands := [] |}.

(** [GetCmdQueryReserveAmount] *)
Definition GetCmdQueryReserveAmount : Command :=
  {| Use := "reserved [denom]";
     Args := ExactArgs 1;
     Short := "Query for the amount reserved of a specified denomination";
     DisableFlagParsing := false; SuggestionsMinimumDistance := 0;
     RunE := fun args =>
       getClientQueryContext ;;;
       a <~ index args 0 ;;
       resp <~ call (QueryReserveAmountRequest a) ;;
       printProto resp;
     Flags := queryFlags; Commands := [] |}.

(** [GetCmdQueryCollateral] *)
Definition GetCmdQueryCollateral : Command :=
  {| Use := "collateral [addr]";
     Args := ExactArgs 1;
     Short := "Query for the total amount of collateral tokens for an address";
     DisableFlagParsing := false; SuggestionsMinimumDistance := 0;
     RunE := fun args =>
       getClientQueryContext ;;;
       a <~ index args 0 ;;
       req <~ withDenomFlag (QueryCollateralRequest a "") ;;
       resp <~ call req ;;
       printProto resp;
     Flags := FlagDenom :: queryFlags; Commands := [] |}.

(** [GetCmdQueryCollateralValue] *)
Definition GetCmdQueryCollateralValue : Command :=
  {| Use := "collateral-value [addr]";
     Args := ExactArgs 1;
     Short := "Query for the total USD value of collateral tokens for an address";
     DisableFlagParsing := false; SuggestionsMinimumDistance := 0;
     RunE := fun args =>
       getClientQueryContext ;;;
       a <~ index args 0 ;;
       req <~ withDenomFlag (QueryCollateralValueRequest a "") ;;
       resp <~ call req ;;
       printProto resp;
     Flags := FlagDenom :: queryFlags; Commands := [] |}.

(** [GetCmdQueryExchangeRate] *)
Definition GetCmdQueryExchangeRate : Command :=
  {| Use := "exchange-rate [denom]";
     Args := ExactArgs 1;
     Short := "Query for the exchange rate of a specified denomination";
     DisableFlagParsing := false; SuggestionsMinimumDistance := 0;
     RunE := fun args =>
       getClientQueryContext ;;;
       a <~ index args 0 ;;
       resp <~ call (QueryExchangeRateRequest a) ;;
       printProto resp;
     Flags := queryFlags; Commands := [] |}.

(** [GetCmdQueryAvailableBorrow] *)
Definition GetCmdQueryAvailableBorrow : Command :=
  {| Use := "available-borrow [denom]";
     Args := ExactArgs 1;
     Short := "Query for the available amount to borrow of a specified denomination";
     DisableFlagParsing := false; SuggestionsMinimumDistance := 0;
     RunE := fun args =>
       getClientQueryContext ;;;
       a <~ index args 0 ;;
       resp <~ call (QueryAvailableBorrowRequest a) ;;
       printProto resp;
     Flags := queryFlags; Commands := [] |}.

(** [GetCmdQuerySupplyAPY] *)
Definition GetCmdQuerySupplyAPY : Command :=
  {| Use := "supply-apy [denom]";
     Args := ExactArgs 1;
     Short := "Query for the supply APY of a specified denomination";
     DisableFlagParsing := false; SuggestionsMinimumDistance := 0;
     RunE := fun args =>
       getClientQueryContext ;;;
       a <~ index args 0 ;;
       resp <~ call (QuerySupplyAPYRequest a) ;;
       printProto resp;
     Flags := queryFlags; Commands := [] |}.

(** [GetCmdQueryBorrowAPY] *)
Definition GetCmdQueryBorrowAPY : Command :=
  {| Use := "borrow-apy [denom]";
     Args := ExactArgs 1;
     Short := "Query for the borrow APY of a specified denomination";
     DisableFlagParsing := false; SuggestionsMinimumDistance := 0;
     RunE := fun args =>
       getClientQueryContext ;;;
       a <~ index args 0 ;;
       resp <~ call (QueryBorrowAPYRequest a) ;;
       printProto resp;
     Flags := queryFlags; Commands := [] |}.

(** [GetCmdQueryMarketSize] *)
Definition GetCmdQueryMarketSize : Command :=
  {| Use := "market-size [denom]";
     Args := ExactArgs 1;
     Short := "Query for the USD market size of a specified denomination";
     DisableFlagParsing := false; SuggestionsMinimumDistance := 0;
     RunE := fun args =>
       getClientQueryContext ;;;
       a <~ index args 0 ;;
       resp <~ call (QueryMarketSizeRequest a) ;;
       printProto resp;
     Flags := queryFlags; Commands := [] |}.

(** [GetCmdQueryTokenMarketSize] *)
Definition GetCmdQueryTokenMarketSize : Command :=
  {| Use := "token-market-size [denom]";
     Args := ExactArgs 1;
     Short := "Query for the market size of a specified denomination measured in base tokens";
     DisableFlagParsing := false; SuggestionsMinimumDistance := 0;
     RunE := fun args =>
       getClientQueryContext ;;;
       a <~ index args 0 ;;
       resp <~ call (QueryTokenMarketSizeRequest a) ;;
       printProto resp;
     Flags := queryFlags; Commands := [] |}.

(** [GetCmdQueryBorrowLimit] *)
Definition GetCmdQueryBorrowLimit : Command :=
  {| Use := "borrow-limit [addr]";
     Args := ExactArgs 1;
     Short := "Query for the borrow limit of a specified borrower";
     DisableFlagParsing := false; SuggestionsMinimumDistance := 0;
     RunE := fun args =>
       getClientQueryContext ;;;
       a <~ index args 0 ;;
       resp <~ call (QueryBorrowLimitRequest a) ;;
       printProto resp;
     Flags := queryFlags; Commands := [] |}.

(** [GetCmdQueryLiquidationThreshold] *)
Definition GetCmdQueryLiquidationThreshold : Command :=
  {| Use := "liquidation-threshold [addr]";
     Args := ExactArgs 1;
     Short := "Query a liquidation threshold of a specified borrower";
     DisableFlagParsing := false; SuggestionsMinimumDistance := 0;
     RunE := fun args =>
       getClientQueryContext ;;;
       a <~ index args 0 ;;
       resp <~ call (QueryLiquidationThresholdRequest a) ;;
       printProto resp;
     Flags := queryFlags; Commands := [] |}.

(** [GetCmdQueryMarketSummary] *)
Definition GetCmdQueryMarketSummary : Command :=
  {| Use := "market-summary [denom]";
     Args := ExactArgs 1;
     Short := "Query for the market summary of a specified denomination";
     DisableFlagParsing := false; SuggestionsMinimumDistance := 0;
     RunE := fun args =>
       getClientQueryContext ;;;
       a <~ index args 0 ;;
       resp <~ call (QueryMarketSummaryRequest a) ;;
       printProto resp;
     Flags := queryFlags; Commands := [] |}.

(** [GetCmdQueryLiquidationTargets] *)
Definition GetCmdQueryLiquidationTargets : Command :=
  {| Use := "liquidation-targets";
     Args := ExactArgs 0;
     Short := "Query for all borrower addresses eligible for liquidation";
     DisableFlagParsing := false; SuggestionsMinimumDistance := 0;
     RunE := fun args =>
       getClientQueryContext ;;;
       resp <~ call QueryLiquidationTargetsRequest ;;
       printProto resp;
     Flags := queryFlags; Commands := [] |}.

(** [GetCmdQueryTotalCollateral] *)
Definition GetCmdQueryTotalCollateral : Command :=
  {| Use := "total-collateral [denom]";
     Args := ExactArgs 1;
     Short := "Query for the total amount of collateral of a uToken denomination";
     DisableFlagParsing := false; SuggestionsMinimumDistance := 0;
     RunE := fun args =>
       getClientQueryContext ;;;
       a <~ index args 0 ;;
       resp <~ call (QueryTotalCollateralRequest a) ;;
       printProto resp;
     Flags := queryFlags; Commands := [] |}.

(** [GetCmdQueryTotalBorrowed] *)
Definition GetCmdQueryTotalBorrowed : Command :=
  {| Use := "total-borrowed [denom]";
     Args := ExactArgs 1;
     Short := "Query for the total amount borrowed of a token denomination";
     DisableFlagParsing := false; SuggestionsMinimumDistance := 0;
     RunE := fun args =>
       getClientQueryContext ;;;
       a <~ index args 0 ;;
       resp <~ call (QueryTotalBorrowedRequest a) ;;
       printProto resp;
     Flags := queryFlags; Commands := [] |}.

(** [GetQueryCmd]: the root of the module's query commands. *)
Definition GetQueryCmd (queryRoute : string) : Command :=
  {| Use := ModuleName;
     Short := "Querying commands for the " ++ ModuleName ++ " module";
     Args := ArbitraryArgs;
     DisableFlagParsing := true;
     SuggestionsMinimumDistance := 2;
     RunE := fun args => fun env => check (ValidateCmd env args) env;
     Flags := [];
     Commands := [
       GetCmdQueryAllRegisteredTokens;
       GetCmdQueryParams;
       GetCmdQueryBorrowed;
       GetCmdQueryBorrowedValue;
       GetCmdQuerySupplied;
       GetCmdQuerySuppliedValue;
       GetCmdQueryReserveAmount;
       GetCmdQueryCollateral;
       GetCmdQueryCollateralValue;
       GetCmdQueryExchangeRate;
       GetCmdQuerySupplyAPY;
       GetCmdQueryBorrowAPY;
       GetCmdQueryMarketSize;
       GetCmdQueryTokenMarketSize;
       GetCmdQueryBorrowLimit;
       GetCmdQueryLiquidationThreshold;
       GetCmdQueryLiquidationTargets;
       GetCmdQueryMarketSummary;
       GetCmdQueryTotalCollateral;
       GetCmdQueryTotalBorrowed
     ] |}.

(** ** Running a command the way cobra does *)

(** The name of a command is the first word of its [Use] line. *)
Fixpoint firstWord (s : string) : string :=
  match s with
  | EmptyString => EmptyString
  | String c rest =>
      if Ascii.eqb c " "%char then EmptyString else String c (firstWord rest)
  end.

Definition Name (c : Command) : string := firstWord (Use c).

(** The positional-argument check; [true] lets the command run.  The message
    of the error is cobra's and plays no part here, so the error value is
    supplied by the caller. *)
Definition validArgs (p : PositionalArgs) (args : list string) : bool :=
  match p with
  | NoArgs => (length args =? 0)%nat
  | ExactArgs n => (length args =? n)%nat
  | ArbitraryArgs => true
  end.

Variable argsError : Command -> list string -> Error.

(** Run one command on its positional arguments: validate, then [RunE]. *)
Definition execute (c : Command) (args : list string) : M unit :=
  if validArgs (Args c) args then RunE c args
  else fun _ => ([], Err (argsError c args)).

(** Look a child up by name. *)
Definition findChild (c : Command) (name : string) : option Command :=
  List.find (fun sub => String.eqb (Name sub) name) (Commands c).

(** Run a command tree of depth one on a command line, flags apart (their
    values reach the bodies through [GetString]): when the first word names
    a child, the child runs on the rest; otherwise the root handles the
    whole line. *)
Definition Execute (root : Command) (line : list string) : M unit :=
  match line with
  | name :: rest =>
      match findChild root name with
      | Some sub => execute sub rest
      | None => execute root line
      end
  | [] => execute root line
  end.

(** ** Tables for the statements *)

(** The names under which [GetQueryCmd] registers its children, in the
    order of the [AddCommand] call. *)
Definition registeredNames (queryRoute : string) : list string :=
  map Name (Commands (GetQueryCmd queryRoute)).

(** The menu of read entry points as the design document lists it (supplied
    and borrowed balances, raw and valued; collateral; exchange rate;
    reserve amount; supply and borrow APY; market size in USD and in tokens;
    borrow limit; liquidation threshold; liquidation targets; market
    summary; total collateral and total borrowed), by subcommand name. *)
Definition queryMenu : list string :=
  [ "supplied"; "supplied-value"; "borrowed"; "borrowed-value";
    "collateral"; "collateral-value"; "exchange-rate"; "reserved";
    "supply-apy"; "borrow-apy"; "market-size"; "token-market-size";
    "borrow-limit"; "liquidation-threshold"; "liquidation-targets";
    "market-summary"; "total-collateral"; "total-borrowed" ].

(** The two last steps of every [RunE], spelled out: the request is sent;
    an answer is printed as it came and the command ends as [PrintProto]
    does; an error of the service is returned and nothing is printed. *)
Definition forwarded (req : Request) (env : Env)
  : list Event * Outcome unit :=
  match Invoke env req with
  | inr resp =>
      ([Sent req; Printed resp],
       match PrintProto env resp with None => Ret tt | Some e => Err e end)
  | inl e => ([Sent req], Err e)
  end.

(** The subcommands that take one positional argument, each with the field
    of its request that the argument is stored in. *)
Definition positionalCommands : list (Command * (Request -> option string)) :=
  [ (GetCmdQueryBorrowed, Address);
    (GetCmdQueryBorrowedValue, Address);
    (GetCmdQuerySupplied, Address);
    (GetCmdQuerySuppliedValue, Address);
    (GetCmdQueryReserveAmount, Denom);
    (GetCmdQueryCollateral, Address);
    (GetCmdQueryCollateralValue, Address);
    (GetCmdQueryExchangeRate, Denom);
    (GetCmdQuerySupplyAPY, Denom);
    (GetCmdQueryBorrowAPY, Denom);
    (GetCmdQueryMarketSize, Denom);
    (GetCmdQueryTokenMarketSize, Denom);
    (GetCmdQueryBorrowLimit, Address);
    (GetCmdQueryLiquidationThreshold, Address);
    (GetCmdQueryMarketSummary, Denom);
    (GetCmdQueryTotalCollateral, Denom);
    (GetCmdQueryTotalBorrowed, Denom) ].

(** The subcommands that read the [--denom] flag. *)
Definition denomFlagCommands : list Command :=
  [ GetCmdQueryBorrowed;
    GetCmdQueryBorrowedValue;
    GetCmdQuerySupplied;
    GetCmdQuerySuppliedValue;
    GetCmdQueryCollateral;
    GetCmdQueryCollateralValue ].

(** The value the [Denom] field ends with after the flag is read. *)
Definition denomFromFlag (r : string * option Error) : string :=
  let '(d, err) := r in
  if (0 <? String.length d)%nat && isNil err then d else "".

(** An event of the available-borrow query. *)
Definition isAvailableBorrow (ev : Event) : bool :=
  match ev with
  | Sent (QueryAvailableBorrowRequest _) => true
  | _ => false
  end.

(** A trace without any available-borrow request. *)
Definition quiet (t : list Event) : Prop :=
  Forall (fun ev => isAvailableBorrow ev = false) t.

End Commands.

Arguments Ret {Error A} a.
Arguments Err {Error A} e.
Arguments Panic {Error A}.

(** ** A sample invocation

    Errors and responses are plain text; the node answers every request
    with the same message, and [--denom uumee] is on the command line. *)
Definition sampleEnv : @Env string string :=
  {| GetClientQueryContext := None;
     GetString := fun _ => ("uumee", None);
     Invoke := fun _ => inr "response";
     PrintProto := fun _ => None;
     ValidateCmd := fun _ => Some "unknown command" |}.

(** The same invocation with a flag set that fails to yield [--denom]. *)
Definition flagErrorEnv : @Env string string :=
  {| GetClientQueryContext := None;
     GetString := fun _ => ("uumee", Some "flag accessed but not defined");
     Invoke := fun _ => inr "response";
     PrintProto := fun _ => None;
     ValidateCmd := fun _ => Some "unknown command" |}.

Definition sampleArgsError (c : @Command string string) (args : list string)
  : string := "wrong number of arguments".

(** The command tree of the sample invocation, and its runner. *)
Definition sampleRoot : @Command string string :=
  GetQueryCmd "leverage" [] "leverage".

Definition sampleRun (line : list string) (env : @Env string string)
  : list (@Event string) * Outcome unit :=
  Execute sampleArgsError sampleRoot line env.

End Cli.

(* ===================================================================== *)
(** * Part two: the lending engine                                        *)
(* ===================================================================== *)

Module Engine.

(** ** Fixed-precision decimals *)

(** Modelled from the spec: the fixed-precision decimal representation of
    rates, utilization and indexes (section 4.2; the sources of the engine
    are missing).  A decimal is the integer count of units of [10^-18];
    products and quotients are rounded down to the next unit. *)
Definition ONE : Z := 10 ^ 18.

(** Modelled from the spec: the product of two decimals in that
    representation, rounded down. *)
Definition dmul (a b : Z) : Z := a * b / ONE.

(** Modelled from the spec: the quotient of two decimals (or of two amounts,
    as a decimal) in that representation, rounded down. *)
Definition ddiv (a b : Z) : Z := a * ONE / b.

(** Modelled from the spec: the clamp of a decimal to [[0, 1]] that section
    4.2 applies to utilization. *)
Definition clamp01 (x : Z) : Z := Z.max 0 (Z.min ONE x).

(** ** Data model *)

(** Modelled from the spec: [TokenDenomParams], the risk parameters of one
    registered denomination (section 3; the keeper sources are missing).
    Fractions and rates are decimals. *)
Record TokenDenomParams : Type := {
  collateralWeight : Z;
  liquidationThreshold : Z;
  reserveFactor : Z;
  baseRate : Z;
  kink : Z;
  slopeLow : Z;
  slopeHigh : Z;
  supplyEnabled : bool;
  borrowEnabled : bool;
  maxCollateralShare : Z
}.

(** Modelled from the spec: [MarketState], the mutable totals of one
    denomination (section 3; the keeper sources are missing).  Amounts are
    whole base-token or uToken units.  The current exchange rate is the
    quotient section 4.3 gives for it, backing over uToken supply, so the
    record keeps the two quantities it is read from ([exchangeRate] below).
    [borrowIndex] is the running accrual index that the snapshot of a
    [Position] refers to. *)
Record MarketState : Type := {
  totalSupplied : Z;
  totalBorrowed : Z;
  totalReserved : Z;
  totalUTokenSupply : Z;
  borrowIndex : Z;
  lastAccrual : Z
}.

(** Modelled from the spec: [Position], one per account and denomination
    (section 3; the keeper sources are missing). *)
Record Position : Type := {
  supplied : Z;
  collateral : Z;
  borrowed : Z;
  indexSnapshot : Z
}.

(** Modelled from the spec: the failure taxonomy of section 7. *)
Inductive Failure : Type :=
  | NotRegistered
  | DenomDisabled
  | InvalidAmount
  | InsufficientBalance
  | BorrowLimitExceeded
  | PriceUnavailable
  | NotEligible
  | InsufficientCollateral.

(** Modelled from the spec: a market as it is created when its denomination
    is registered (section 3, Lifecycle): nothing supplied, nothing lent,
    index 1.0. *)
Definition newMarket : MarketState :=
  {| totalSupplied := 0; totalBorrowed := 0; totalReserved := 0;
     totalUTokenSupply := 0; borrowIndex := ONE; lastAccrual := 0 |}.

(** Modelled from the spec: a position before the first interaction of the
    account with the denomination (created lazily, section 3). *)
Definition emptyPosition : Position :=
  {| supplied := 0; collateral := 0; borrowed := 0; indexSnapshot := 0 |}.

(** Modelled from the spec: the state the engine owns (section 3,
    Ownership): the parameters by denomination, the markets by denomination
    and the positions by account and denomination. *)
Record Ledger : Type := {
  registry : gmap string TokenDenomParams;
  markets : gmap string MarketState;
  positions : gmap (string * string) Position
}.

(** ** TokenRegistry (section 4.1) *)

(** Modelled from the spec: [get(denom) -> TokenDenomParams | NotRegistered]. *)
Definition get (s : Ledger) (denom : string) : Failure + TokenDenomParams :=
  match registry s !! denom with
  | Some p => inr p
  | None => inl NotRegistered
  end.

(** Modelled from the spec: [isRegistered(denom) -> bool]. *)
Definition isRegistered (s : Ledger) (denom : string) : bool :=
  bool_decide (is_Some (registry s !! denom)).

(** Modelled from the spec: the market of a denomination; one that was
    never written is as [newMarket] left it. *)
Definition marketOf (s : Ledger) (denom : string) : MarketState :=
  default newMarket (markets s !! denom).

(** Modelled from the spec: the position of an account in a denomination;
    zero balances stand for a position never touched. *)
Definition positionOf (s : Ledger) (account denom : string) : Position :=
  default emptyPosition (positions s !! (account, denom)).

(** ** InterestRateModel (section 4.2) *)

(** Modelled from the spec: utilization [u = totalBorrowed / totalSupplied],
    0 when nothing is supplied, clamped to [[0, 1]]. *)
Definition utilization (m : MarketState) : Z :=
  if totalSupplied m =? 0 then 0
  else clamp01 (ddiv (totalBorrowed m) (totalSupplied m)).

(** Modelled from the spec: the borrow rate, piecewise linear in [u]:
    [base + slopeLow * min(u, kink)], plus [slopeHigh * (u - kink)] above
    the kink. *)
Definition borrowRate (p : TokenDenomParams) (u : Z) : Z :=
  baseRate p + dmul (slopeLow p) (Z.min u (kink p))
  + (if kink p <? u then dmul (slopeHigh p) (u - kink p) else 0).

(** Modelled from the spec: supply rate
    [= borrowRate * u * (1 - reserveFactor)]. *)
Definition supplyRate (p : TokenDenomParams) (u : Z) : Z :=
  dmul (dmul (borrowRate p u) u) (ONE - reserveFactor p).

(** Modelled from the spec:
    [rates(marketState, params) -> (borrowAPY, supplyAPY)]. *)
Definition rates (m : MarketState) (p : TokenDenomParams) : Z * Z :=
  let u := utilization m in
  (borrowRate p u, supplyRate p u).

(** ** ExchangeRateEngine (section 4.3) *)

(** Modelled from the spec: the exchange rate, base-token backing over
    uToken supply; 1.0 while no uToken is outstanding (the rate the first
    supplier of section 8 meets). *)
Definition exchangeRate (m : MarketState) : Z :=
  if totalUTokenSupply m =? 0 then ONE
  else ddiv (totalSupplied m) (totalUTokenSupply m).

(** Modelled from the spec: the length of the year that annualized rates
    refer to, elapsed time being counted in seconds. *)
Definition SECONDS_PER_YEAR : Z := 31536000.

(** Modelled from the spec: interest accrued over elapsed time, an annual
    decimal rate applied to an amount for [elapsed] seconds, rounded down. *)
Definition accrued (amount rate elapsed : Z) : Z :=
  amount * rate * elapsed / (ONE * SECONDS_PER_YEAR).

(** Modelled from the spec:
    [accrue(marketState, params, elapsed) -> newExchangeRate].  The interest
    of the period at the current borrow rate is added to [totalBorrowed]; a
    [reserveFactor] share of it goes to [totalReserved]; the remainder is
    added to the backing of the uTokens, and the new rate is
    [(totalSupplied + nonReserveInterest) / totalUTokenSupply].  The result
    is the market after the step together with that rate. *)
Definition accrue (m : MarketState) (p : TokenDenomParams) (elapsed : Z)
  : MarketState * Z :=
  let borrowAPY := fst (rates m p) in
  let interest := accrued (totalBorrowed m) borrowAPY elapsed in
  let reserveShare := dmul interest (reserveFactor p) in
  let nonReserveInterest := interest - reserveShare in
  let m' :=
    {| totalSupplied := totalSupplied m + nonReserveInterest;
       totalBorrowed := totalBorrowed m + interest;
       totalReserved := totalReserved m + reserveShare;
       totalUTokenSupply := totalUTokenSupply m;
       borrowIndex := borrowIndex m + accrued (borrowIndex m) borrowAPY elapsed;
       lastAccrual := lastAccrual m + elapsed |} in
  (m', exchangeRate m').

(** [accrue] called [n] times in a row with the same elapsed time. *)
Definition accrueTimes (n : nat) (p : TokenDenomParams) (elapsed : Z)
  (m : MarketState) : MarketState :=
  Nat.iter n (fun x => fst (accrue x p elapsed)) m.

(** ** PositionLedger (section 4.4) *)

(** Modelled from the spec: what an account owes in a market, its borrowed
    amount carried from the index of its snapshot to the index of the
    market. *)
Definition owedBalance (pos : Position) (m : MarketState) : Z :=
  if indexSnapshot pos =? 0 then borrowed pos
  else borrowed pos * borrowIndex m / indexSnapshot pos.

(** Modelled from the spec: the accrual step that opens every operation of
    section 4.4, on the market of [denom] at time [now]; the elapsed time is
    counted from the last accrual on the clock the engine consumes. *)
Definition accruedMarket (s : Ledger) (p : TokenDenomParams) (now : Z)
  (denom : string) : MarketState :=
  let m := marketOf s denom in
  fst (accrue m p (now - lastAccrual m)).

(** Modelled from the spec: the spendable base-token balance of an account
    in a denomination.  The data model of section 3 keeps no such balance;
    it is what section 7 calls available for a repayment, and it reaches the
    engine from the outside like the prices and the clock do. *)
Definition Funds : Type := string -> string -> Z.

(** Modelled from the spec: [repay(account, denom, amount)].  An unknown
    denomination is [NotRegistered] (section 4.1) and a non-positive amount
    [InvalidAmount] (section 7).  Accrual comes first; the amount is capped
    to what the account owes; a payment that exceeds the available funds of
    the account, once capped, is [InsufficientBalance] (section 7);
    otherwise the amount actually applied is returned and taken off
    [totalBorrowed].  Every failure is found before anything is written. *)
Definition repay (s : Ledger) (now : Z) (funds : Funds)
  (account denom : string) (amount : Z) : Ledger * (Failure + Z) :=
  match get s denom with
  | inl e => (s, inl e)
  | inr p =>
      if amount <=? 0 then (s, inl InvalidAmount)
      else
        let m := accruedMarket s p now denom in
        let pos := positionOf s account denom in
        let owed := owedBalance pos m in
        let applied := Z.min amount owed in
        if funds account denom <? applied then (s, inl InsufficientBalance)
        else
          let pos' :=
            {| supplied := supplied pos;
               collateral := collateral pos;
               borrowed := owed - applied;
               indexSnapshot := borrowIndex m |} in
          let m' :=
            {| totalSupplied := totalSupplied m;
               totalBorrowed := totalBorrowed m - applied;
               totalReserved := totalReserved m;
               totalUTokenSupply := totalUTokenSupply m;
               borrowIndex := borrowIndex m;
               lastAccrual := lastAccrual m |} in
          ({| registry := registry s;
              markets := <[denom := m']> (markets s);
              positions := <[(account, denom) := pos']> (positions s) |},
           inr applied)
  end.

(** ** Sample data *)

(** Half of a pool of 1000 lent out, kink at 0.8, base rate 2%, slopes 10%
    and 100%, a tenth of the interest kept as reserves: utilization 0.5,
    borrow rate 7%, supply rate 3.15%. *)
Definition params0 : TokenDenomParams :=
  {| collateralWeight := 8 * 10 ^ 17; liquidationThreshold := 85 * 10 ^ 16;
     reserveFactor := 10 ^ 17; baseRate := 2 * 10 ^ 16; kink := 8 * 10 ^ 17;
     slopeLow := 10 ^ 17; slopeHigh := ONE;
     supplyEnabled := true; borrowEnabled := true;
     maxCollateralShare := ONE |}.

Definition market0 : MarketState :=
  {| totalSupplied := 1000; totalBorrowed := 500; totalReserved := 0;
     totalUTokenSupply := 1000; borrowIndex := ONE; lastAccrual := 0 |}.

(** A borrower of the sample market, in debt for 500 since the index was
    1.0, and a ledger that holds just that market and that position. *)
Definition position0 : Position :=
  {| supplied := 0; collateral := 0; borrowed := 500; indexSnapshot := ONE |}.

Definition ledger0 : Ledger :=
  {| registry := {[ "uumee"%string := params0 ]};
     markets := {[ "uumee"%string := market0 ]};
     positions := {[ ("alice"%string, "uumee"%string) := position0 ]} |}.

(** Every account holds 600 of every denomination, or only 100. *)
Definition funds600 : Funds := fun _ _ => 600.

Definition funds100 : Funds := fun _ _ => 100.

End Engine.

(* ===================================================================== *)
(** * Facts about the query commands                                      *)
(* ===================================================================== *)

Module CliFacts.

Import Cli.
Local Open Scope string_scope.

(** ** The sample invocation, run *)

Example run_borrowed :
  sampleRun ["borrowed"; "umee1borrower"] sampleEnv =
    ([Sent (QueryBorrowedRequest "umee1borrower" "uumee"); Printed "response"],
     Ret tt).
Proof. reflexivity. Qed.

Example run_borrowed_flag_error :
  sampleRun ["borrowed"; "umee1borrower"] flagErrorEnv =
    ([Sent (QueryBorrowedRequest "umee1borrower" ""); Printed "response"],
     Ret tt).
Proof. reflexivity. Qed.

Example run_exchange_rate :
  sampleRun ["exchange-rate"; "uumee"] sampleEnv =
    ([Sent (QueryExchangeRateRequest "uumee"); Printed "response"], Ret tt).
Proof. reflexivity. Qed.

Example run_exchange_rate_no_argument :
  sampleRun ["exchange-rate"] sampleEnv =
    ([], Err "wrong number of arguments").
Proof. reflexivity. Qed.

Example run_liquidation_targets :
  sampleRun ["liquidation-targets"] sampleEnv =
    ([Sent QueryLiquidationTargetsRequest; Printed "response"], Ret tt).
Proof. reflexivity. Qed.

Example run_available_borrow :
  sampleRun ["available-borrow"; "uumee"] sampleEnv =
    ([], Err "unknown command").
Proof. reflexivity. Qed.

Section Facts.

Context {Error : Type} {Response : Type}.
Variable ModuleName : string.
Variable queryFlags : list string.
Variable argsError : @Command Error Response -> list string -> Error.

Local Abbreviation Env := (@Cli.Env Error Response).
Local Abbreviation Command := (@Cli.Command Error Response).
Local Abbreviation Event := (@Cli.Event Response).

(** ** Steps of a command body *)

Lemma forward_forwarded (req : Request) (env : Env) :
  bind (call req) (fun resp => printProto resp) env = forwarded req env.
Proof.
  unfold forwarded, bind, call, printProto.
  destruct (Invoke env req) as [e|resp]; [reflexivity|].
  destruct (PrintProto env resp); reflexivity.
Qed.

(** A step that neither logs nor fails hands its value to the rest. *)
Lemma bind_silent {A B} (m : M A) (k : A -> M B) (env : Env) (a : A) :
  m env = ([], Ret a) -> bind m k env = k a env.
Proof.
  intros Hm. unfold bind. rewrite Hm. destruct (k a env); reflexivity.
Qed.

Lemma getClientQueryContext_ok (env : Env) :
  GetClientQueryContext env = None ->
  getClientQueryContext env = ([], Ret tt).
Proof. intros H. unfold getClientQueryContext, check. rewrite H. reflexivity. Qed.

(** The flag statement never fails and never logs: it yields the request
    with the flag's value in [Denom] when the value is non-empty and was
    read without an error, and the request as it was otherwise. *)
Lemma withDenomFlag_silent (req : Request) (env : Env) :
  withDenomFlag req env =
    ([], Ret (if (0 <? String.length (fst (GetString env FlagDenom)))%nat
                 && isNil (snd (GetString env FlagDenom))
              then setDenom req (fst (GetString env FlagDenom))
              else req)).
Proof.
  unfold withDenomFlag, bind, getString, ret.
  destruct (GetString env FlagDenom) as [d err]; cbn [fst snd].
  destruct ((0 <? String.length d)%nat && isNil err); reflexivity.
Qed.

(** Expose the body of whichever command is at hand. *)
Ltac open_command :=
  cbv beta iota delta
    [RunE GetCmdQueryAllRegisteredTokens GetCmdQueryParams GetCmdQueryBorrowed
     GetCmdQueryBorrowedValue GetCmdQuerySupplied GetCmdQuerySuppliedValue
     GetCmdQueryReserveAmount GetCmdQueryCollateral GetCmdQueryCollateralValue
     GetCmdQueryExchangeRate GetCmdQueryAvailableBorrow GetCmdQuerySupplyAPY
     GetCmdQueryBorrowAPY GetCmdQueryMarketSize GetCmdQueryTokenMarketSize
     GetCmdQueryBorrowLimit GetCmdQueryLiquidationThreshold
     GetCmdQueryMarketSummary GetCmdQueryLiquidationTargets
     GetCmdQueryTotalCollateral GetCmdQueryTotalBorrowed].

(** Walk a body on one argument down to the call of the service. *)
Ltac walk_body env Hctx :=
  open_command;
  rewrite (bind_silent _ _ env tt (getClientQueryContext_ok env Hctx));
  (erewrite (bind_silent (index _ 0)); [| reflexivity]);
  try (erewrite (bind_silent (withDenomFlag _));
       [| apply withDenomFlag_silent]).

(** From the root to the child the first word names: the lookup and the
    argument check are computed, the body is left to run. *)
Ltac dispatch_to_body :=
  match goal with
  | |- context [Cli.Execute ?f ?r [Name ?c; ?x] ?v] =>
      change (Cli.Execute f r [Name c; x] v) with (RunE c [x] v)
  end.

Ltac dispatch_to_child :=
  match goal with
  | |- context [Cli.Execute ?f ?r (Name ?c :: ?l) ?v] =>
      change (Cli.Execute f r (Name c :: l) v) with (Cli.execute f c l v)
  end.

(** The definitions of part one at the collaborators of this section. *)
Local Abbreviation GetQueryCmd :=
  (@Cli.GetQueryCmd Error Response ModuleName queryFlags).
Local Abbreviation GetCmdQueryAvailableBorrow :=
  (@Cli.GetCmdQueryAvailableBorrow Error Response queryFlags).
Local Abbreviation registeredNames :=
  (@Cli.registeredNames Error Response ModuleName queryFlags).
Local Abbreviation positionalCommands :=
  (@Cli.positionalCommands Error Response queryFlags).
Local Abbreviation denomFlagCommands :=
  (@Cli.denomFlagCommands Error Response queryFlags).
Local Abbreviation execute := (@Cli.execute Error Response argsError).
Local Abbreviation Execute := (@Cli.Execute Error Response argsError).

(** ** The command tree *)

(** C2.  [GetQueryCmd] registers exactly twenty subcommands, under these
    names and in this order; no name is registered twice, every child is a
    leaf of the tree, and every entry of the menu of read entry points is
    among the names. *)
Theorem GetQueryCmd_registers_twenty (queryRoute : string) :
  registeredNames queryRoute =
    [ "registered-tokens"; "params"; "borrowed"; "borrowed-value";
      "supplied"; "supplied-value"; "reserved"; "collateral";
      "collateral-value"; "exchange-rate"; "supply-apy"; "borrow-apy";
      "market-size"; "token-market-size"; "borrow-limit";
      "liquidation-threshold"; "liquidation-targets"; "market-summary";
      "total-collateral"; "total-borrowed" ]
  /\ length (Commands (GetQueryCmd queryRoute)) = 20%nat
  /\ NoDup (registeredNames queryRoute)
  /\ Forall (fun c : Command => Commands c = [])
            (Commands (GetQueryCmd queryRoute))
  /\ Forall (fun name => In name (registeredNames queryRoute)) queryMenu.
Proof.
  split; [reflexivity|]. split; [reflexivity|]. split; [| split].
  - unfold Cli.registeredNames. cbn.
    apply (bool_decide_unpack _). vm_compute. exact I.
  - cbn. repeat constructor.
  - unfold queryMenu, Cli.registeredNames. cbn [map Commands Cli.GetQueryCmd].
    repeat (apply Forall_cons; split); try apply Forall_nil_2.
    all: cbn; tauto.
Qed.

(** ** Forwarding *)

(** C1.  Every subcommand with a positional argument, run from the root as
    [<name> <arg>] with a client context at hand, sends exactly one request;
    the request holds the argument, unchanged, in the field the table names
    ([Address] or [Denom]); when the service answers, the answer is printed
    as it came and nothing else is; when the service fails, its error is
    returned.  The one thing the command does on its own is to count its
    arguments: with any other number of them nothing is sent. *)
Theorem positional_argument_forwarded (queryRoute : string) :
  map (fun cf => Name (fst cf)) positionalCommands =
    [ "borrowed"; "borrowed-value"; "supplied"; "supplied-value"; "reserved";
      "collateral"; "collateral-value"; "exchange-rate"; "supply-apy";
      "borrow-apy"; "market-size"; "token-market-size"; "borrow-limit";
      "liquidation-threshold"; "market-summary"; "total-collateral";
      "total-borrowed" ]
  /\ Forall (fun cf : Command * (Request -> option string) =>
        forall (a : string) (env : Env),
          GetClientQueryContext env = None ->
          exists req : Request,
            snd cf req = Some a /\
            Execute (GetQueryCmd queryRoute) [Name (fst cf); a] env
              = forwarded req env)
      positionalCommands
  /\ Forall (fun cf : Command * (Request -> option string) =>
        forall (args : list string) (env : Env),
          length args <> 1%nat ->
          Execute (GetQueryCmd queryRoute) (Name (fst cf) :: args) env
            = ([], Err (argsError (fst cf) args)))
      positionalCommands.
Proof.
  split; [reflexivity|].
  unfold Cli.positionalCommands. split.
  - repeat (apply Forall_cons; split); try apply Forall_nil_2.
    all: intros a env Hctx; cbn [fst snd].
    all: dispatch_to_body.
    all: match goal with
         | H : GetClientQueryContext ?v = None |- _ => walk_body v H
         end.
    all: eexists; split; [| apply forward_forwarded].
    all: try reflexivity.
    all: destruct (_ && _); reflexivity.
  - repeat (apply Forall_cons; split); try apply Forall_nil_2.
    all: intros args env Hlen; cbn [fst].
    all: dispatch_to_child.
    all: unfold Cli.execute; cbn [Args validArgs];
      open_command; cbn [Args validArgs].
    all: apply Nat.eqb_neq in Hlen; rewrite Hlen; reflexivity.
Qed.

(** ** The [--denom] flag *)

(** C9.  The six subcommands that read [--denom] build their request from
    the positional argument and the flag alone: [Denom] holds the flag's
    value when that value is non-empty and was read without an error, and
    is empty otherwise.  An error of the flag read is dropped: whatever
    value came with it, [Denom] stays empty and the query goes out all the
    same, ending as the service and the printer make it end. *)
Theorem denom_flag_error_discarded (queryRoute : string) :
  map Name denomFlagCommands =
    [ "borrowed"; "borrowed-value"; "supplied"; "supplied-value";
      "collateral"; "collateral-value" ]
  /\ (forall (d : string) (e : Error), denomFromFlag (d, Some e) = "")
  /\ (forall d : string, denomFromFlag (Error := Error) (d, None) = d)
  /\ Forall (fun c : Command =>
        forall (a : string) (env : Env),
          GetClientQueryContext env = None ->
          exists req : Request,
            Address req = Some a /\
            Denom req = Some (denomFromFlag (GetString env FlagDenom)) /\
            Execute (GetQueryCmd queryRoute) [Name c; a] env
              = forwarded req env)
      denomFlagCommands.
Proof.
  split; [reflexivity|].
  split; [intros d e; unfold denomFromFlag, isNil;
          rewrite andb_false_r; reflexivity|].
  split; [intros [|ch d]; reflexivity|].
  unfold Cli.denomFlagCommands.
  repeat (apply Forall_cons; split); try apply Forall_nil_2.
  all: intros a env Hctx.
  all: dispatch_to_body.
  all: walk_body env Hctx.
  all: eexists; split; [| split; [| apply forward_forwarded]].
  all: unfold denomFromFlag.
  all: destruct (GetString env FlagDenom) as [d err]; cbn [fst snd].
  all: destruct ((0 <? String.length d)%nat && isNil err); reflexivity.
Qed.

(** ** The command that is never registered *)

(** No child of the root ever sends an available-borrow request. *)
Lemma quiet_children (queryRoute : string) :
  Forall (fun c : Command =>
            forall (args : list string) (env : Env),
              quiet (fst (execute c args env)))
         (Commands (GetQueryCmd queryRoute)).
Proof.
  cbn [Commands Cli.GetQueryCmd].
  repeat (apply Forall_cons; split); try apply Forall_nil_2.
  all: intros args env; unfold Cli.execute, quiet.
  all: destruct (validArgs _ args); [| apply Forall_nil_2].
  all: open_command.
  all: unfold bind at 1; unfold getClientQueryContext, check.
  all: destruct (GetClientQueryContext env); cbn [fst]; [apply Forall_nil_2|].
  all: try (unfold bind at 1; unfold index;
            destruct (nth_error args 0); [| apply Forall_nil_2]).
  all: try (unfold bind at 1; rewrite withDenomFlag_silent;
            destruct (_ && _)).
  all: unfold bind, call, printProto, setDenom.
  all: destruct (Invoke env _) as [e|resp];
    [| destruct (PrintProto env resp)]; cbn.
  all: repeat (apply Forall_cons; split; [reflexivity|]); apply Forall_nil_2.
Qed.

(** C10.  [GetCmdQueryAvailableBorrow] builds a working subcommand named
    [available-borrow], yet no child of [GetQueryCmd] has that name, the
    lookup of the name finds nothing, and no command line whatsoever makes
    the command tree send an available-borrow request. *)
Theorem available_borrow_unreachable (queryRoute : string) :
  Name GetCmdQueryAvailableBorrow = "available-borrow"
  /\ (forall (a : string) (env : Env),
        GetClientQueryContext env = None ->
        execute GetCmdQueryAvailableBorrow [a] env
          = forwarded (QueryAvailableBorrowRequest a) env)
  /\ ~ In "available-borrow" (registeredNames queryRoute)
  /\ findChild (GetQueryCmd queryRoute) "available-borrow" = None
  /\ (forall (line : list string) (env : Env),
        Forall (fun ev => isAvailableBorrow ev = false)
               (fst (Execute (GetQueryCmd queryRoute) line env))).
Proof.
  split; [reflexivity|]. split.
  { intros a env Hctx.
    change (execute GetCmdQueryAvailableBorrow [a] env)
      with (RunE GetCmdQueryAvailableBorrow [a] env).
    walk_body env Hctx. apply forward_forwarded. }
  split.
  { cbn. intros H. repeat (destruct H as [H|H]; [discriminate H|]). exact H. }
  split; [reflexivity|].
  intros line env.
  assert (Hroot : forall l,
             quiet (fst (execute (GetQueryCmd queryRoute) l env))).
  { intros l. unfold Cli.execute, quiet. cbn. unfold check.
    destruct (ValidateCmd env l); apply Forall_nil_2. }
  unfold Cli.Execute. destruct line as [|name rest]; [apply Hroot|].
  destruct (findChild (GetQueryCmd queryRoute) name) as [sub|] eqn:Hfind;
    [| apply Hroot].
  apply find_some in Hfind. destruct Hfind as [Hin _].
  pose proof (quiet_children queryRoute) as Hq.
  rewrite List.Forall_forall in Hq. apply (Hq sub Hin).
Qed.

End Facts.

(** ** The theorems at the sample invocation *)

Lemma positional_argument_forwarded_witness :
  GetClientQueryContext sampleEnv = None
  /\ exists req : Request,
       Address req = Some "umee1borrower" /\
       sampleRun ["borrowed"; "umee1borrower"] sampleEnv
         = forwarded req sampleEnv.
Proof.
  split; [reflexivity|].
  destruct (positional_argument_forwarded "leverage" [] sampleArgsError
              "leverage") as (_ & H & _).
  apply Forall_inv in H.
  exact (H "umee1borrower" sampleEnv eq_refl).
Defined.

Lemma denom_flag_error_discarded_witness :
  GetClientQueryContext flagErrorEnv = None
  /\ exists req : Request,
       Address req = Some "umee1borrower" /\
       Denom req = Some "" /\
       sampleRun ["borrowed"; "umee1borrower"] flagErrorEnv
         = forwarded req flagErrorEnv.
Proof.
  split; [reflexivity|].
  destruct (denom_flag_error_discarded "leverage" [] sampleArgsError
              "leverage") as (_ & _ & _ & H).
  apply Forall_inv in H.
  exact (H "umee1borrower" flagErrorEnv eq_refl).
Defined.

Lemma available_borrow_unreachable_witness :
  GetClientQueryContext sampleEnv = None
  /\ Cli.execute sampleArgsError (GetCmdQueryAvailableBorrow []) ["uumee"]
       sampleEnv
     = forwarded (QueryAvailableBorrowRequest "uumee") sampleEnv
  /\ quiet (fst (sampleRun ["available-borrow"; "uumee"] sampleEnv)).
Proof.
  split; [reflexivity|].
  destruct (available_borrow_unreachable "leverage" [] sampleArgsError
              "leverage") as (_ & Hdirect & _ & _ & Hquiet).
  split.
  - exact (Hdirect "uumee" sampleEnv eq_refl).
  - exact (Hquiet ["available-borrow"; "uumee"] sampleEnv).
Defined.

End CliFacts.

(* ===================================================================== *)
(** * Facts about the lending engine                                      *)
(* ===================================================================== *)

Module EngineFacts.

Import Engine.

(** ** Decimals *)

Lemma ONE_pos : 0 < ONE.
Proof. reflexivity. Qed.

Lemma clamp01_bounds (x : Z) : 0 <= clamp01 x <= ONE.
Proof. unfold clamp01. pose proof ONE_pos. lia. Qed.

Lemma clamp01_id (x : Z) : 0 <= x <= ONE -> clamp01 x = x.
Proof. unfold clamp01. lia. Qed.

(** A quotient of decimals is the exact quotient rounded down: it is at
    most one unit of precision below it. *)
Lemma ddiv_floor (a b : Z) :
  0 < b -> ddiv a b * b <= a * ONE < (ddiv a b + 1) * b.
Proof.
  intros Hb. unfold ddiv.
  pose proof (Z.mul_div_le (a * ONE) b Hb).
  pose proof (Z.mul_succ_div_gt (a * ONE) b Hb).
  lia.
Qed.

Lemma ddiv_unit_interval (a b : Z) :
  0 < b -> 0 <= a <= b -> 0 <= ddiv a b <= ONE.
Proof.
  intros Hb Ha. unfold ddiv. pose proof ONE_pos. split.
  - apply Z.div_pos; lia.
  - apply Z.div_le_upper_bound; nia.
Qed.

Lemma accrued_zero_elapsed (amount rate : Z) : accrued amount rate 0 = 0.
Proof. unfold accrued. rewrite Z.mul_0_r. apply Z.div_0_l. discriminate. Qed.

Lemma dmul_zero_l (b : Z) : dmul 0 b = 0.
Proof. unfold dmul. rewrite Z.mul_0_l. apply Z.div_0_l. discriminate. Qed.

(** ** InterestRateModel *)

Example rates_market0 :
  utilization market0 = 5 * 10 ^ 17
  /\ rates market0 params0 = (7 * 10 ^ 16, 315 * 10 ^ 14).
Proof. split; reflexivity. Qed.

(** Borrowed beyond supplied, as rounding may leave it: clamped to 1. *)
Example utilization_overshoot :
  utilization {| totalSupplied := 1000; totalBorrowed := 1001;
                 totalReserved := 0; totalUTokenSupply := 1000;
                 borrowIndex := ONE; lastAccrual := 0 |} = ONE.
Proof. reflexivity. Qed.

(** C7.  Utilization is 0 when nothing is supplied and otherwise the
    quotient [totalBorrowed / totalSupplied] clamped to [[0, 1]]; it always
    lies in [[0, 1]]; when borrowed lies between 0 and supplied it is that
    quotient itself, the exact ratio rounded down to the precision of the
    decimals; and the supply rate returned by [rates] is
    [borrowRate * u * (1 - reserveFactor)]. *)
Theorem utilization_and_supply_rate (m : MarketState) (p : TokenDenomParams) :
  (totalSupplied m = 0 -> utilization m = 0)
  /\ (totalSupplied m <> 0 ->
      utilization m = clamp01 (ddiv (totalBorrowed m) (totalSupplied m)))
  /\ 0 <= utilization m <= ONE
  /\ (0 < totalSupplied m -> 0 <= totalBorrowed m <= totalSupplied m ->
      utilization m = ddiv (totalBorrowed m) (totalSupplied m)
      /\ utilization m * totalSupplied m <= totalBorrowed m * ONE
           < (utilization m + 1) * totalSupplied m)
  /\ fst (rates m p) = borrowRate p (utilization m)
  /\ snd (rates m p) =
       dmul (dmul (fst (rates m p)) (utilization m)) (ONE - reserveFactor p).
Proof.
  assert (Hr : fst (rates m p) = borrowRate p (utilization m)
               /\ snd (rates m p) =
                  dmul (dmul (fst (rates m p)) (utilization m))
                       (ONE - reserveFactor p)).
  { unfold rates, supplyRate. cbn [fst snd]. split; reflexivity. }
  unfold utilization in *.
  destruct (totalSupplied m =? 0) eqn:Hts.
  - apply Z.eqb_eq in Hts. pose proof ONE_pos.
    split; [reflexivity|]. split; [intros Hne; contradiction|].
    split; [lia|]. split; [intros Hpos; lia | exact Hr].
  - apply Z.eqb_neq in Hts.
    split; [intros H; contradiction|].
    split; [reflexivity|].
    split; [apply clamp01_bounds|].
    split; [| exact Hr].
    intros Hpos Hb.
    rewrite clamp01_id by (apply ddiv_unit_interval; lia).
    split; [reflexivity|].
    apply ddiv_floor. exact Hpos.
Qed.

Lemma utilization_and_supply_rate_witness :
  0 < totalSupplied market0
  /\ 0 <= totalBorrowed market0 <= totalSupplied market0
  /\ utilization market0 = ddiv (totalBorrowed market0) (totalSupplied market0)
  /\ utilization market0 * totalSupplied market0 <= totalBorrowed market0 * ONE
       < (utilization market0 + 1) * totalSupplied market0.
Proof.
  assert (Hpos : 0 < totalSupplied market0) by reflexivity.
  assert (Hb : 0 <= totalBorrowed market0 <= totalSupplied market0)
    by (split; discriminate).
  destruct (utilization_and_supply_rate market0 params0)
    as (_ & _ & _ & Hu & _).
  exact (conj Hpos (conj Hb (Hu Hpos Hb))).
Defined.

(** ** ExchangeRateEngine *)

Lemma accrue_zero_market (m : MarketState) (p : TokenDenomParams) :
  fst (accrue m p 0) = m.
Proof.
  unfold accrue. cbn [fst].
  rewrite !accrued_zero_elapsed, dmul_zero_l.
  destruct m; cbn. f_equal; lia.
Qed.

Example accrue_one_year :
  accrue market0 params0 SECONDS_PER_YEAR =
    ({| totalSupplied := 1032; totalBorrowed := 535; totalReserved := 3;
        totalUTokenSupply := 1000; borrowIndex := 107 * 10 ^ 16;
        lastAccrual := SECONDS_PER_YEAR |},
     1032 * 10 ^ 15).
Proof. reflexivity. Qed.

(** C8.  With zero elapsed time [accrue] gives the market back as it was,
    together with its exchange rate as it was; so after any number of such
    calls the exchange rate and both APYs are what they were, and a second
    call changes nothing the first one left. *)
Theorem accrue_zero_elapsed_idempotent
  (m : MarketState) (p : TokenDenomParams) (n : nat) :
  accrue m p 0 = (m, exchangeRate m)
  /\ accrueTimes n p 0 m = m
  /\ exchangeRate (accrueTimes n p 0 m) = exchangeRate m
  /\ rates (accrueTimes n p 0 m) p = rates m p
  /\ accrue (fst (accrue m p 0)) p 0 = accrue m p 0.
Proof.
  assert (Hn : accrueTimes n p 0 m = m).
  { induction n as [|k IH]; [reflexivity|].
    unfold accrueTimes in *. rewrite Nat.iter_succ, IH.
    apply accrue_zero_market. }
  assert (H1 : accrue m p 0 = (m, exchangeRate m)).
  { pose proof (accrue_zero_market m p) as Hm.
    unfold accrue in *. cbn [fst] in Hm. cbv zeta. rewrite Hm. reflexivity. }
  split; [exact H1|]. split; [exact Hn|].
  rewrite Hn. split; [reflexivity|]. split; [reflexivity|].
  rewrite accrue_zero_market. reflexivity.
Qed.

(** ** PositionLedger: repay *)

Lemma lookup_market_insert (s : Ledger) (denom : string) (m : MarketState) :
  default newMarket (<[denom := m]> (markets s) !! denom) = m.
Proof. rewrite lookup_insert_eq. reflexivity. Qed.

Lemma lookup_position_insert (s : Ledger) (k : string * string) (pos : Position) :
  default emptyPosition (<[k := pos]> (positions s) !! k) = pos.
Proof. rewrite lookup_insert_eq. reflexivity. Qed.

(** A cleared debt owes nothing, whatever the index. *)
Lemma owedBalance_cleared (pos : Position) (m : MarketState) :
  borrowed pos = 0 -> owedBalance pos m = 0.
Proof.
  intros H. unfold owedBalance. rewrite H.
  destruct (indexSnapshot pos =? 0); [reflexivity|].
  rewrite Z.mul_0_l. apply Zdiv_0_l.
Qed.

(** One year after the last accrual the sample debt of 500 has grown to 535
    at 7%; a payment of 1000 is cut down to that. *)
Example repay_ledger0 :
  snd (repay ledger0 SECONDS_PER_YEAR funds600 "alice" "uumee" 1000) = inr 535
  /\ totalBorrowed
       (marketOf
          (fst (repay ledger0 SECONDS_PER_YEAR funds600 "alice" "uumee" 1000))
          "uumee") = 0.
Proof. split; vm_compute; reflexivity. Qed.

(** An exact or a partial payment is applied in full. *)
Example repay_ledger0_partial :
  snd (repay ledger0 SECONDS_PER_YEAR funds600 "alice" "uumee" 35) = inr 35
  /\ borrowed
       (positionOf
          (fst (repay ledger0 SECONDS_PER_YEAR funds600 "alice" "uumee" 35))
          "alice" "uumee") = 500.
Proof. split; vm_compute; reflexivity. Qed.

(** C6, as stated, does not hold: a positive payment above the owed balance
    fails in a denomination the registry does not know (nothing is owed
    there, and [repay] ends with [NotRegistered]), and it fails in a
    registered one when the funds of the account fall short of what it owes
    (535 owed, 100 at hand: [InsufficientBalance]).  Either way the ledger
    is left as it was. *)
Lemma repay_overpayment_can_fail :
  (0 < 1000
   /\ owedBalance (positionOf ledger0 "alice" "uatom")
                  (marketOf ledger0 "uatom") < 1000
   /\ repay ledger0 SECONDS_PER_YEAR funds600 "alice" "uatom" 1000
        = (ledger0, inl NotRegistered))
  /\ (0 < 1000
      /\ owedBalance (positionOf ledger0 "alice" "uumee")
                     (accruedMarket ledger0 params0 SECONDS_PER_YEAR "uumee")
           < 1000
      /\ repay ledger0 SECONDS_PER_YEAR funds100 "alice" "uumee" 1000
           = (ledger0, inl InsufficientBalance)).
Proof.
  split; (split; [reflexivity|]; split; [reflexivity|]).
  - reflexivity.
  - unfold repay, get.
    change (registry ledger0 !! "uumee"%string) with (Some params0).
    cbv zeta.
    change (1000 <=? 0) with false. cbv iota.
    replace (funds100 "alice"%string "uumee"%string <?
             Z.min 1000
               (owedBalance (positionOf ledger0 "alice" "uumee")
                  (accruedMarket ledger0 params0 SECONDS_PER_YEAR "uumee")))
      with true by (vm_compute; reflexivity).
    reflexivity.
Qed.

(** C6, amended.  In a registered denomination, a positive payment that
    exceeds what the account owes once interest is accrued, made by an
    account whose available funds cover what it owes, does not fail:
    [repay] returns exactly the owed balance as the amount applied, leaves
    the account owing nothing, and takes that amount, no more, off the
    [totalBorrowed] of the accrued market. *)
Theorem repay_overpayment_clamped
  (s : Ledger) (now : Z) (funds : Funds) (account denom : string)
  (amount : Z) (p : TokenDenomParams) :
  registry s !! denom = Some p ->
  0 < amount ->
  owedBalance (positionOf s account denom) (accruedMarket s p now denom)
    < amount ->
  owedBalance (positionOf s account denom) (accruedMarket s p now denom)
    <= funds account denom ->
  let m := accruedMarket s p now denom in
  let owed := owedBalance (positionOf s account denom) m in
  let s' := fst (repay s now funds account denom amount) in
  snd (repay s now funds account denom amount) = inr owed
  /\ totalBorrowed (marketOf s' denom) = totalBorrowed m - owed
  /\ borrowed (positionOf s' account denom) = 0
  /\ owedBalance (positionOf s' account denom) (marketOf s' denom) = 0.
Proof.
  intros Hreg Hpos Hover Hfunds m owed s'.
  assert (Hmin : Z.min amount owed = owed) by (subst owed m; lia).
  assert (Hrun : repay s now funds account denom amount =
    ({| registry := registry s;
        markets :=
          <[denom := {| totalSupplied := totalSupplied m;
                        totalBorrowed := totalBorrowed m - owed;
                        totalReserved := totalReserved m;
                        totalUTokenSupply := totalUTokenSupply m;
                        borrowIndex := borrowIndex m;
                        lastAccrual := lastAccrual m |}]> (markets s);
        positions :=
          <[(account, denom) :=
              {| supplied := supplied (positionOf s account denom);
                 collateral := collateral (positionOf s account denom);
                 borrowed := owed - owed;
                 indexSnapshot := borrowIndex m |}]> (positions s) |},
     inr owed)).
  { unfold repay, get. rewrite Hreg.
    destruct (amount <=? 0) eqn:Hle; [apply Z.leb_le in Hle; lia|].
    cbv zeta. fold m. fold owed. rewrite Hmin.
    destruct (funds account denom <? owed) eqn:Hshort;
      [apply Z.ltb_lt in Hshort; subst owed m; lia|].
    reflexivity. }
  subst s'. rewrite Hrun. cbn [fst snd].
  unfold marketOf, positionOf. cbn [markets positions].
  rewrite lookup_market_insert, lookup_position_insert. cbn.
  split; [reflexivity|]. split; [reflexivity|].
  split; [lia|].
  apply owedBalance_cleared. cbn. lia.
Qed.

Lemma repay_overpayment_clamped_witness :
  registry ledger0 !! "uumee"%string = Some params0
  /\ 0 < 1000
  /\ owedBalance (positionOf ledger0 "alice" "uumee")
                 (accruedMarket ledger0 params0 SECONDS_PER_YEAR "uumee")
       <= funds600 "alice"%string "uumee"%string
  /\ snd (repay ledger0 SECONDS_PER_YEAR funds600 "alice" "uumee" 1000)
       = inr 535
  /\ totalBorrowed
       (marketOf
          (fst (repay ledger0 SECONDS_PER_YEAR funds600 "alice" "uumee" 1000))
          "uumee") = 535 - 535.
Proof.
  assert (Hfunds :
    owedBalance (positionOf ledger0 "alice" "uumee")
                (accruedMarket ledger0 params0 SECONDS_PER_YEAR "uumee")
      <= funds600 "alice"%string "uumee"%string)
    by (vm_compute; discriminate).
  split; [reflexivity|]. split; [reflexivity|]. split; [exact Hfunds|].
  pose proof (repay_overpayment_clamped ledger0 SECONDS_PER_YEAR funds600
                "alice" "uumee" 1000 params0 eq_refl eq_refl eq_refl Hfunds)
    as H.
  cbv zeta in H. destruct H as (Hret & Htotal & _).
  split; [exact Hret | exact Htotal].
Defined.

End EngineFacts.

(* ===================================================================== *)
(** * Part three: the whole command tree                                  *)
(* ===================================================================== *)

Module CliTree.

Import Cli.
Local Open Scope string_scope.

Section Tables.

Context {Error : Type} {Response : Type}.
Variable queryFlags : list string.

Local Abbreviation Env := (@Cli.Env Error Response).
Local Abbreviation Command := (@Cli.Command Error Response).

(** The subcommands without a positional argument, each with the (empty)
    request its body builds. *)
Definition noArgumentCommands : list (Command * Request) :=
  [ (GetCmdQueryAllRegisteredTokens queryFlags, QueryRegisteredTokens);
    (GetCmdQueryParams queryFlags, QueryParamsRequest);
    (GetCmdQueryLiquidationTargets queryFlags, QueryLiquidationTargetsRequest) ].

(** For each subcommand with a positional argument, the message its body
    hands to the method of [queryClient] it calls, as a function of the
    argument and of the value the [Denom] field is left with. *)
Definition requestTable : list (string * (string -> string -> Request)) :=
  [ ("borrowed", fun a d => QueryBorrowedRequest a d);
    ("borrowed-value", fun a d => QueryBorrowedValueRequest a d);
    ("supplied", fun a d => QuerySuppliedRequest a d);
    ("supplied-value", fun a d => QuerySuppliedValueRequest a d);
    ("reserved", fun a _ => QueryReserveAmountRequest a);
    ("collateral", fun a d => QueryCollateralRequest a d);
    ("collateral-value", fun a d => QueryCollateralValueRequest a d);
    ("exchange-rate", fun a _ => QueryExchangeRateRequest a);
    ("supply-apy", fun a _ => QuerySupplyAPYRequest a);
    ("borrow-apy", fun a _ => QueryBorrowAPYRequest a);
    ("market-size", fun a _ => QueryMarketSizeRequest a);
    ("token-market-size", fun a _ => QueryTokenMarketSizeRequest a);
    ("borrow-limit", fun a _ => QueryBorrowLimitRequest a);
    ("liquidation-threshold", fun a _ => QueryLiquidationThresholdRequest a);
    ("market-summary", fun a _ => QueryMarketSummaryRequest a);
    ("total-collateral", fun a _ => QueryTotalCollateralRequest a);
    ("total-borrowed", fun a _ => QueryTotalBorrowedRequest a) ].

(** What follows the name on the [Use] line: the placeholder shown to the
    user for the positional argument. *)
Fixpoint afterFirstWord (s : string) : string :=
  match s with
  | EmptyString => EmptyString
  | String c rest =>
      if Ascii.eqb c " "%char then rest else afterFirstWord rest
  end.

Definition usageArgument (c : Command) : string := afterFirstWord (Use c).

(** What the root does with a line it keeps for itself: [client.ValidateCmd]
    decides, nothing is sent. *)
Definition handledByRoot (env : Env) (line : list string)
  : list (@Event Response) * Outcome unit :=
  ([], match ValidateCmd env line with None => Ret tt | Some e => Err e end).

End Tables.

(** The sample invocation without a client context. *)
Definition noContextEnv : @Env string string :=
  {| GetClientQueryContext := Some "no client context";
     GetString := fun _ => ("uumee", None);
     Invoke := fun _ => inr "response";
     PrintProto := fun _ => None;
     ValidateCmd := fun _ => Some "unknown command" |}.

(** The sample invocation against a node that refuses every query. *)
Definition refusingEnv : @Env string string :=
  {| GetClientQueryContext := None;
     GetString := fun _ => ("uumee", None);
     Invoke := fun _ => inl "rpc error";
     PrintProto := fun _ => None;
     ValidateCmd := fun _ => Some "unknown command" |}.

End CliTree.

(* ===================================================================== *)
(** * Facts about the whole command tree                                  *)
(* ===================================================================== *)

Module CliTreeFacts.

Import Cli CliTree.
Local Open Scope string_scope.

(** ** Sample runs *)

Example run_params_with_argument :
  sampleRun ["params"; "uumee"] sampleEnv = ([], Err "wrong number of arguments").
Proof. reflexivity. Qed.

Example run_without_context :
  sampleRun ["supplied"; "umee1supplier"] noContextEnv
    = ([], Err "no client context").
Proof. reflexivity. Qed.

Example run_refused :
  sampleRun ["market-summary"; "uumee"] refusingEnv
    = ([Sent (QueryMarketSummaryRequest "uumee")], Err "rpc error").
Proof. reflexivity. Qed.

(** Without its validator a body would index an empty slice. *)
Example body_on_no_argument :
  RunE (GetCmdQueryExchangeRate []) [] sampleEnv = ([], Panic).
Proof. reflexivity. Qed.

Section Facts.

Context {Error : Type} {Response : Type}.
Variable ModuleName : string.
Variable queryFlags : list string.
Variable argsError : @Command Error Response -> list string -> Error.

Local Abbreviation Env := (@Cli.Env Error Response).
Local Abbreviation Command := (@Cli.Command Error Response).
Local Abbreviation Event := (@Cli.Event Response).

(** Expose the body of whichever command is at hand. *)
Ltac open_command :=
  cbv beta iota delta
    [RunE GetCmdQueryAllRegisteredTokens GetCmdQueryParams GetCmdQueryBorrowed
     GetCmdQueryBorrowedValue GetCmdQuerySupplied GetCmdQuerySuppliedValue
     GetCmdQueryReserveAmount GetCmdQueryCollateral GetCmdQueryCollateralValue
     GetCmdQueryExchangeRate GetCmdQueryAvailableBorrow GetCmdQuerySupplyAPY
     GetCmdQueryBorrowAPY GetCmdQueryMarketSize GetCmdQueryTokenMarketSize
     GetCmdQueryBorrowLimit GetCmdQueryLiquidationThreshold
     GetCmdQueryMarketSummary GetCmdQueryLiquidationTargets
     GetCmdQueryTotalCollateral GetCmdQueryTotalBorrowed].

(** Past the client context, then past [args[0]] and the flag statement
    where the body has them. *)
Ltac past_context env Hctx :=
  open_command;
  rewrite (CliFacts.bind_silent _ _ env tt
             (CliFacts.getClientQueryContext_ok env Hctx)).

Ltac past_argument :=
  try (erewrite (CliFacts.bind_silent (index _ 0)); [| reflexivity]);
  try (erewrite (CliFacts.bind_silent (withDenomFlag _));
       [| apply CliFacts.withDenomFlag_silent]).

Ltac dispatch_to_child :=
  match goal with
  | |- context [Cli.Execute ?f ?r (Name ?c :: ?l) ?v] =>
      change (Cli.Execute f r (Name c :: l) v) with (Cli.execute f c l v)
  end.

(** The line [<name> <arg>] runs the body of [c] on the argument, when [c]
    is the child the name finds and one argument is what it takes. *)
Ltac to_body c :=
  match goal with
  | |- Cli.Execute ?f ?r [?n; ?x] ?v = _ =>
      change (Cli.Execute f r [n; x] v) with (RunE c [x] v)
  end.

Ltac each_child :=
  repeat (apply Forall_cons; split); try apply Forall_nil_2.

Local Abbreviation GetQueryCmd :=
  (@Cli.GetQueryCmd Error Response ModuleName queryFlags).
Local Abbreviation registeredNames :=
  (@Cli.registeredNames Error Response ModuleName queryFlags).
Local Abbreviation positionalCommands :=
  (@Cli.positionalCommands Error Response queryFlags).
Local Abbreviation denomFlagCommands :=
  (@Cli.denomFlagCommands Error Response queryFlags).
Local Abbreviation noArgumentCommands :=
  (@CliTree.noArgumentCommands Error Response queryFlags).
Local Abbreviation execute := (@Cli.execute Error Response argsError).
Local Abbreviation Execute := (@Cli.Execute Error Response argsError).

(** ** How a child ends *)

(** Every registered child, on any arguments, ends in one of three ways:
    the argument check refuses; the client context fails with its error;
    or one request is forwarded. *)
Lemma child_cases (queryRoute : string) :
  Forall (fun c : Command =>
    forall (args : list string) (env : Env),
      (validArgs (Args c) args = false
       /\ execute c args env = ([], Err (argsError c args)))
      \/ (validArgs (Args c) args = true
          /\ exists e, GetClientQueryContext env = Some e
                       /\ execute c args env = ([], Err e))
      \/ (validArgs (Args c) args = true
          /\ GetClientQueryContext env = None
          /\ exists req, execute c args env = forwarded req env))
    (Commands (GetQueryCmd queryRoute)).
Proof.
  cbn [Commands Cli.GetQueryCmd]. each_child.
  all: intros args env; unfold Cli.execute.
  all: destruct (validArgs _ args) eqn:Hv; [| left; split; reflexivity].
  all: right.
  all: destruct (GetClientQueryContext env) as [e|] eqn:Hctx.
  all: try (left; split; [reflexivity|]; exists e; split; [reflexivity|];
            open_command; unfold bind at 1, getClientQueryContext, check;
            rewrite Hctx; reflexivity).
  all: right; split; [reflexivity|]; split; [reflexivity|].
  all: cbn in Hv; destruct args as [|a [|b l]]; try discriminate Hv.
  all: past_context env Hctx; past_argument.
  all: eexists; apply CliFacts.forward_forwarded.
Qed.

(** The lookup of a registered name finds the child registered under it. *)
Lemma findChild_registered (queryRoute : string) :
  Forall (fun c : Command =>
            findChild (GetQueryCmd queryRoute) (Name c) = Some c)
         (Commands (GetQueryCmd queryRoute)).
Proof.
  cbn [Commands Cli.GetQueryCmd]. each_child.
  all: reflexivity.
Qed.

Lemma findChild_sound (queryRoute name : string) (c : Command) :
  findChild (GetQueryCmd queryRoute) name = Some c ->
  In c (Commands (GetQueryCmd queryRoute)) /\ Name c = name.
Proof.
  intros H. apply find_some in H. destruct H as [Hin Heq].
  split; [exact Hin|]. apply String.eqb_eq. exact Heq.
Qed.

Lemma execute_root (queryRoute : string) (line : list string) (env : Env) :
  execute (GetQueryCmd queryRoute) line env = handledByRoot env line.
Proof.
  unfold Cli.execute, handledByRoot. cbn. unfold check.
  destruct (ValidateCmd env line); reflexivity.
Qed.

(** A command line either stays with the root or goes to the registered
    child its first word names, which runs on the remaining words. *)
Lemma Execute_cases (queryRoute : string) (line : list string) (env : Env) :
  Execute (GetQueryCmd queryRoute) line env = handledByRoot env line
  \/ exists (c : Command) (args : list string),
       In c (Commands (GetQueryCmd queryRoute))
       /\ line = Name c :: args
       /\ Execute (GetQueryCmd queryRoute) line env = execute c args env.
Proof.
  unfold Cli.Execute. destruct line as [|name rest].
  - left. apply execute_root.
  - destruct (findChild (GetQueryCmd queryRoute) name) as [c|] eqn:Hf.
    + right. exists c, rest. apply findChild_sound in Hf.
      destruct Hf as [Hin Heq]. rewrite Heq. repeat split. exact Hin.
    + left. apply execute_root.
Qed.

(** Every command line ends in one of three ways: the root keeps it; it
    fails before anything is sent; or one request is forwarded. *)
Lemma Execute_outcomes (queryRoute : string) (line : list string) (env : Env) :
  Execute (GetQueryCmd queryRoute) line env = handledByRoot env line
  \/ (exists e, Execute (GetQueryCmd queryRoute) line env = ([], Err e))
  \/ (GetClientQueryContext env = None
      /\ exists req,
           Execute (GetQueryCmd queryRoute) line env = forwarded req env).
Proof.
  destruct (Execute_cases queryRoute line env)
    as [Hroot | (c & args & Hin & _ & Hrun)]; [left; exact Hroot|].
  right. rewrite Hrun.
  pose proof (child_cases queryRoute) as Hc.
  rewrite List.Forall_forall in Hc.
  destruct (Hc c Hin args env)
    as [[_ H] | [(_ & e & _ & H) | (_ & Hctx & req & H)]].
  - left. eexists. exact H.
  - left. exists e. exact H.
  - right. split; [exact Hctx|]. exists req. exact H.
Qed.

(** The two ways a forwarded request ends. *)
Lemma forwarded_cases (req : Request) (env : Env) :
  (exists e, Invoke env req = inl e
             /\ forwarded req env = ([Sent req], Err e))
  \/ (exists resp, Invoke env req = inr resp
        /\ forwarded req env =
             ([Sent req; Printed resp],
              match PrintProto env resp with
              | None => Ret tt
              | Some e => Err e
              end)).
Proof.
  unfold forwarded. destruct (Invoke env req) as [e|resp].
  - left. exists e. split; reflexivity.
  - right. exists resp. split; reflexivity.
Qed.

(** ** Commands without an argument *)

(** X1.  [registered-tokens], [params] and [liquidation-targets], run from
    the root without an argument and with a client context at hand, forward
    the empty request of their query and print the answer; with one argument
    or more they send nothing and end with the argument error. *)
Theorem no_argument_commands_forward (queryRoute : string) :
  map (fun cr => Name (fst cr)) noArgumentCommands =
    [ "registered-tokens"; "params"; "liquidation-targets" ]
  /\ Forall (fun cr : Command * Request =>
        forall env : Env,
          GetClientQueryContext env = None ->
          Execute (GetQueryCmd queryRoute) [Name (fst cr)] env
            = forwarded (snd cr) env)
      noArgumentCommands
  /\ Forall (fun cr : Command * Request =>
        forall (a : string) (args : list string) (env : Env),
          Execute (GetQueryCmd queryRoute) (Name (fst cr) :: a :: args) env
            = ([], Err (argsError (fst cr) (a :: args))))
      noArgumentCommands.
Proof.
  split; [reflexivity|]. unfold CliTree.noArgumentCommands. split.
  - each_child.
    all: intros env Hctx; cbn [fst snd]; dispatch_to_child.
    all: change (Cli.execute argsError ?c [] env) with (RunE c [] env).
    all: past_context env Hctx.
    all: apply CliFacts.forward_forwarded.
  - each_child.
    all: intros a args env; cbn [fst snd]; dispatch_to_child.
    all: reflexivity.
Qed.

(** ** The query behind each name *)

(** X2.  Each subcommand with a positional argument calls the query of its
    own name: the message forwarded by [<name> <arg>] is the one the table
    lists for that name, built from the argument and, for the six commands
    that read [--denom], the value the flag leaves in [Denom]. *)
Theorem each_command_calls_its_own_query (queryRoute : string) :
  map fst requestTable = map (fun cf => Name (fst cf)) positionalCommands
  /\ Forall (fun nb : string * (string -> string -> Request) =>
        forall (a : string) (env : Env),
          GetClientQueryContext env = None ->
          Execute (GetQueryCmd queryRoute) [fst nb; a] env
            = forwarded
                (snd nb a (denomFromFlag (GetString env FlagDenom))) env)
      requestTable.
Proof.
  split; [reflexivity|]. unfold requestTable. each_child.
  all: intros a env Hctx; cbn [fst snd].
  all: first
    [ to_body (@GetCmdQueryBorrowed Error Response queryFlags)
    | to_body (@GetCmdQueryBorrowedValue Error Response queryFlags)
    | to_body (@GetCmdQuerySupplied Error Response queryFlags)
    | to_body (@GetCmdQuerySuppliedValue Error Response queryFlags)
    | to_body (@GetCmdQueryReserveAmount Error Response queryFlags)
    | to_body (@GetCmdQueryCollateral Error Response queryFlags)
    | to_body (@GetCmdQueryCollateralValue Error Response queryFlags)
    | to_body (@GetCmdQueryExchangeRate Error Response queryFlags)
    | to_body (@GetCmdQuerySupplyAPY Error Response queryFlags)
    | to_body (@GetCmdQueryBorrowAPY Error Response queryFlags)
    | to_body (@GetCmdQueryMarketSize Error Response queryFlags)
    | to_body (@GetCmdQueryTokenMarketSize Error Response queryFlags)
    | to_body (@GetCmdQueryBorrowLimit Error Response queryFlags)
    | to_body (@GetCmdQueryLiquidationThreshold Error Response queryFlags)
    | to_body (@GetCmdQueryMarketSummary Error Response queryFlags)
    | to_body (@GetCmdQueryTotalCollateral Error Response queryFlags)
    | to_body (@GetCmdQueryTotalBorrowed Error Response queryFlags) ].
  all: past_context env Hctx; past_argument.
  all: rewrite CliFacts.forward_forwarded.
  all: try reflexivity.
  all: unfold denomFromFlag.
  all: destruct (GetString env FlagDenom) as [d err]; cbn [fst snd].
  all: destruct ((0 <? String.length d)%nat && isNil err); reflexivity.
Qed.

(** ** Failures before the request *)

(** X3.  Without a client context nothing is sent and nothing is printed,
    whatever the command line; and when the line names a registered child
    with arguments its validator accepts, the command ends with the error
    of [client.GetClientQueryContext]. *)
Theorem no_context_nothing_sent
  (queryRoute : string) (line : list string) (env : Env) (e : Error) :
  GetClientQueryContext env = Some e ->
  fst (Execute (GetQueryCmd queryRoute) line env) = []
  /\ (forall (c : Command) (args : list string),
        In c (Commands (GetQueryCmd queryRoute)) ->
        line = Name c :: args ->
        validArgs (Args c) args = true ->
        Execute (GetQueryCmd queryRoute) line env = ([], Err e)).
Proof.
  intros Hctx. split.
  - destruct (Execute_outcomes queryRoute line env)
      as [H | [(e' & H) | (Hnone & _)]].
    + rewrite H. reflexivity.
    + rewrite H. reflexivity.
    + congruence.
  - intros c args Hin Hline Hvalid. subst line.
    pose proof (findChild_registered queryRoute) as Hf.
    rewrite List.Forall_forall in Hf.
    unfold Cli.Execute. rewrite (Hf c Hin).
    pose proof (child_cases queryRoute) as Hc.
    rewrite List.Forall_forall in Hc.
    destruct (Hc c Hin args env)
      as [[Hv _] | [(_ & e' & He' & H) | (_ & Hnone & _)]].
    + congruence.
    + rewrite H. congruence.
    + congruence.
Qed.

(** ** What a run can do at all *)

(** X4.  No command line makes the tree send more than one request or print
    anything but the answer to the request it sent: the events of a run are
    none at all, or one request that the service refused (whose error is
    then the result), or one request followed by the print of exactly what
    the service answered to it (the result being that of the print). *)
Theorem at_most_one_request
  (queryRoute : string) (line : list string) (env : Env) :
  fst (Execute (GetQueryCmd queryRoute) line env) = []
  \/ (exists (req : Request) (e : Error),
        Invoke env req = inl e
        /\ Execute (GetQueryCmd queryRoute) line env = ([Sent req], Err e))
  \/ (exists (req : Request) (resp : Response),
        Invoke env req = inr resp
        /\ Execute (GetQueryCmd queryRoute) line env =
             ([Sent req; Printed resp],
              match PrintProto env resp with
              | None => Ret tt
              | Some e => Err e
              end)).
Proof.
  destruct (Execute_outcomes queryRoute line env)
    as [H | [(e & H) | (_ & req & H)]].
  - left. rewrite H. reflexivity.
  - left. rewrite H. reflexivity.
  - right. rewrite H.
    destruct (forwarded_cases req env) as [(e & Hi & Hf) | (resp & Hi & Hf)].
    + left. exists req, e. split; assumption.
    + right. exists req, resp. split; assumption.
Qed.

(** X5.  Run through the tree, no command ever panics: the [args[0]] of a
    body is only reached behind [cobra.ExactArgs(1)].  The validator is
    what makes it so: each of these bodies, called on no argument with a
    client context at hand, indexes out of range. *)
Theorem Execute_never_panics (queryRoute : string) :
  (forall (line : list string) (env : Env),
     snd (Execute (GetQueryCmd queryRoute) line env) <> Panic)
  /\ Forall (fun cf : Command * (Request -> option string) =>
        forall env : Env,
          GetClientQueryContext env = None ->
          RunE (fst cf) [] env = ([], Panic))
      positionalCommands.
Proof.
  split.
  - intros line env.
    destruct (Execute_outcomes queryRoute line env)
      as [H | [(e & H) | (_ & req & H)]]; rewrite H.
    + unfold handledByRoot. cbn [snd].
      destruct (ValidateCmd env line); discriminate.
    + discriminate.
    + destruct (forwarded_cases req env)
        as [(e & _ & Hf) | (resp & _ & Hf)]; rewrite Hf; cbn [snd].
      * discriminate.
      * destruct (PrintProto env resp); discriminate.
  - unfold Cli.positionalCommands. each_child.
    all: intros env Hctx; cbn [fst].
    all: past_context env Hctx.
    all: reflexivity.
Qed.

(** ** Dispatch *)

(** X6.  Adding the children and looking them up agree: every child that
    [GetQueryCmd] registers is the one found under its own name, so none is
    shadowed by another, and a line that starts with that name runs that
    child on the remaining words; a name finds a child exactly when it is
    registered. *)
Theorem registered_child_found (queryRoute : string) :
  Forall (fun c : Command =>
            findChild (GetQueryCmd queryRoute) (Name c) = Some c
            /\ forall (args : list string) (env : Env),
                 Execute (GetQueryCmd queryRoute) (Name c :: args) env
                   = execute c args env)
         (Commands (GetQueryCmd queryRoute))
  /\ (forall name : string,
        In name (registeredNames queryRoute) <->
        exists c : Command,
          findChild (GetQueryCmd queryRoute) name = Some c).
Proof.
  pose proof (findChild_registered queryRoute) as Hf. split.
  - rewrite List.Forall_forall in *. intros c Hin. split.
    + apply (Hf c Hin).
    + intros args env. unfold Cli.Execute. rewrite (Hf c Hin). reflexivity.
  - intros name. split.
    + unfold Cli.registeredNames. rewrite in_map_iff.
      intros (c & Hname & Hin). exists c. subst name.
      rewrite List.Forall_forall in Hf. apply (Hf c Hin).
    + intros (c & Hc). apply findChild_sound in Hc.
      destruct Hc as [Hin Hname]. subst name.
      unfold Cli.registeredNames. apply in_map. exact Hin.
Qed.

(** ** Usage lines *)

(** X9.  The usage line of each subcommand with a positional argument
    tells where the argument goes: a command shown as [<name> [addr]] puts
    it in [Address], one shown as [<name> [denom]] puts it in [Denom] of a
    message to which the body assigns no [Address]. *)
Theorem usage_names_the_field (queryRoute : string) :
  Forall (fun cf : Command * (Request -> option string) =>
    forall (a : string) (env : Env),
      GetClientQueryContext env = None ->
      exists req : Request,
        Execute (GetQueryCmd queryRoute) [Name (fst cf); a] env
          = forwarded req env
        /\ ((usageArgument (fst cf) = "[addr]" /\ Address req = Some a)
            \/ (usageArgument (fst cf) = "[denom]"
                /\ Denom req = Some a /\ Address req = None)))
    positionalCommands.
Proof.
  unfold Cli.positionalCommands. each_child.
  all: intros a env Hctx; cbn [fst].
  all: match goal with
       | |- context [Cli.Execute ?f ?r [Name ?c; ?x] ?v] =>
           change (Cli.Execute f r [Name c; x] v) with (RunE c [x] v)
       end.
  all: past_context env Hctx; past_argument.
  all: eexists; split; [apply CliFacts.forward_forwarded|].
  all: first
    [ left; split; [reflexivity|]; try reflexivity;
      destruct (_ && _); reflexivity
    | right; split; [reflexivity|]; split; reflexivity ].
Qed.

(** ** Success *)

(** How the body of a registered child ends, on any arguments: with an
    error before anything is sent, with the panic of [args[0]], or with one
    request forwarded. *)
Lemma body_cases (queryRoute : string) :
  Forall (fun c : Command =>
    forall (args : list string) (env : Env),
      (exists e, RunE c args env = ([], Err e))
      \/ RunE c args env = ([], Panic)
      \/ exists req, RunE c args env = forwarded req env)
    (Commands (GetQueryCmd queryRoute)).
Proof.
  cbn [Commands Cli.GetQueryCmd]. each_child.
  all: intros args env.
  all: destruct (GetClientQueryContext env) as [e|] eqn:Hctx.
  all: try (left; exists e; open_command;
            unfold bind at 1, getClientQueryContext, check;
            rewrite Hctx; reflexivity).
  all: right.
  all: past_context env Hctx.
  all: try (right; eexists; apply CliFacts.forward_forwarded).
  all: destruct args as [|a l]; [left; reflexivity|].
  all: right; past_argument.
  all: eexists; apply CliFacts.forward_forwarded.
Qed.

(** X10.  No body of a registered subcommand returns [nil] without output:
    whenever the [RunE] of one of the twenty children, on any arguments and
    with any collaborators, ends without an error, one request was sent,
    the service answered it, and that answer was printed without a
    printing error. *)
Theorem body_success_means_printed (queryRoute : string) :
  Forall (fun c : Command =>
    forall (args : list string) (env : Env),
      snd (RunE c args env) = Ret tt ->
      exists (req : Request) (resp : Response),
        Invoke env req = inr resp
        /\ PrintProto env resp = None
        /\ fst (RunE c args env) = [Sent req; Printed resp])
    (Commands (GetQueryCmd queryRoute)).
Proof.
  pose proof (body_cases queryRoute) as Hb.
  rewrite List.Forall_forall in *. intros c Hin args env Hok.
  destruct (Hb c Hin args env) as [(e & H) | [H | (req & H)]];
    rewrite H in *; try discriminate Hok.
  destruct (forwarded_cases req env) as [(e & _ & Hfw) | (resp & Hi & Hfw)];
    rewrite Hfw in *; cbn [fst snd] in *; [discriminate Hok|].
  exists req, resp. split; [exact Hi|].
  destruct (PrintProto env resp); [discriminate Hok|].
  split; reflexivity.
Qed.

End Facts.

(** ** The theorems at the sample invocation *)

Lemma no_argument_commands_forward_witness :
  GetClientQueryContext sampleEnv = None
  /\ sampleRun ["registered-tokens"] sampleEnv
     = forwarded QueryRegisteredTokens sampleEnv.
Proof.
  split; [reflexivity|].
  destruct (no_argument_commands_forward "leverage" [] sampleArgsError
              "leverage") as (_ & H & _).
  apply Forall_inv in H. exact (H sampleEnv eq_refl).
Defined.

Lemma each_command_calls_its_own_query_witness :
  GetClientQueryContext sampleEnv = None
  /\ sampleRun ["borrowed"; "umee1borrower"] sampleEnv
     = forwarded (QueryBorrowedRequest "umee1borrower" "uumee") sampleEnv.
Proof.
  split; [reflexivity|].
  destruct (each_command_calls_its_own_query "leverage" [] sampleArgsError
              "leverage") as (_ & H).
  apply Forall_inv in H. exact (H "umee1borrower" sampleEnv eq_refl).
Defined.

Lemma no_context_nothing_sent_witness :
  GetClientQueryContext noContextEnv = Some "no client context"
  /\ fst (sampleRun ["supplied"; "umee1supplier"] noContextEnv) = []
  /\ sampleRun ["supplied"; "umee1supplier"] noContextEnv
     = ([], Err "no client context").
Proof.
  split; [reflexivity|].
  destruct (no_context_nothing_sent "leverage" [] sampleArgsError "leverage"
              ["supplied"; "umee1supplier"] noContextEnv
              "no client context" eq_refl) as [Hnone Herr].
  split; [exact Hnone|].
  apply (Herr (GetCmdQuerySupplied []) ["umee1supplier"]).
  - cbn. do 4 right. left. reflexivity.
  - reflexivity.
  - reflexivity.
Defined.

Lemma Execute_never_panics_witness :
  GetClientQueryContext sampleEnv = None
  /\ snd (sampleRun ["borrowed"] sampleEnv) <> Panic
  /\ RunE (GetCmdQueryBorrowed []) [] sampleEnv = ([], Panic).
Proof.
  split; [reflexivity|].
  destruct (Execute_never_panics "leverage" [] sampleArgsError "leverage")
    as (Hsafe & Hbody).
  split.
  - exact (Hsafe ["borrowed"] sampleEnv).
  - apply Forall_inv in Hbody. exact (Hbody sampleEnv eq_refl).
Defined.

Lemma usage_names_the_field_witness :
  GetClientQueryContext sampleEnv = None
  /\ exists req : Request,
       sampleRun ["borrowed"; "umee1borrower"] sampleEnv
         = forwarded req sampleEnv
       /\ ((usageArgument (GetCmdQueryBorrowed (Error := string)
                             (Response := string) []) = "[addr]"
            /\ Address req = Some "umee1borrower")
           \/ (usageArgument (GetCmdQueryBorrowed (Error := string)
                                (Response := string) []) = "[denom]"
               /\ Denom req = Some "umee1borrower" /\ Address req = None)).
Proof.
  split; [reflexivity|].
  pose proof (usage_names_the_field "leverage" [] sampleArgsError "leverage")
    as H.
  apply Forall_inv in H. exact (H "umee1borrower" sampleEnv eq_refl).
Defined.

Lemma body_success_means_printed_witness :
  snd (RunE (GetCmdQueryAllRegisteredTokens []) [] sampleEnv) = Ret tt
  /\ exists (req : Request) (resp : string),
       Invoke sampleEnv req = inr resp
       /\ PrintProto sampleEnv resp = None
       /\ fst (RunE (GetCmdQueryAllRegisteredTokens []) [] sampleEnv)
            = [Sent req; Printed resp].
Proof.
  split; [reflexivity|].
  pose proof (body_success_means_printed (Error := string)
                (Response := string) "leverage" [] "leverage") as H.
  apply Forall_inv in H. exact (H [] sampleEnv eq_refl).
Defined.

End CliTreeFacts.
